(** * Rotating attendance tokens: the QR session manager of [app.py]

    A shallow embedding of the session manager ([QRCodeManager]), of the
    routes that drive it ([generate_qr], [stop_qr], [logout],
    [get_qr_token], [scan_qr]) and of the two SQLite tables they touch
    ([qr_sessions], [attendance]), followed by the properties of the
    token scheme and of the session life cycle.

    Conventions.
    - Time is a [Z], in seconds since the Unix epoch (UTC).  One call of
      a manager method runs under the manager's lock; the clock readings
      it makes ([datetime.utcnow()], [time.time()]) are taken at one
      instant [now], handed to the operation.
    - A Python [str] is a [string] holding its UTF-8 bytes, so that
      [str.encode()] is the list of its bytes.
    - [uuid.uuid4()] is an input of [start_session]: the environment
      supplies the identifier.
    - The in-memory dict [active_session] is either empty or holds the
      four keys written by the manager: it is an [option Session]. *)

From Stdlib Require Import ZArith List String Ascii Bool Lia.
From Stdlib Require Import DecimalString.
Import ListNotations.

Local Open Scope string_scope.
Local Open Scope Z_scope.

(** ** SHA-256 (FIPS 180-4), as provided by [hashlib.sha256] *)

Module Sha256.

Definition w32 (x : Z) : Z := x mod 2 ^ 32.

Definition add32 (x y : Z) : Z := w32 (x + y).

Definition rotr (n x : Z) : Z :=
  Z.lor (Z.shiftr x n) (w32 (Z.shiftl x (32 - n))).

Definition not32 (x : Z) : Z := Z.lxor x (2 ^ 32 - 1).

Definition Ch (x y z : Z) : Z := Z.lxor (Z.land x y) (Z.land (not32 x) z).

Definition Maj (x y z : Z) : Z :=
  Z.lxor (Z.lxor (Z.land x y) (Z.land x z)) (Z.land y z).

Definition Sigma0 (x : Z) : Z :=
  Z.lxor (Z.lxor (rotr 2 x) (rotr 13 x)) (rotr 22 x).

Definition Sigma1 (x : Z) : Z :=
  Z.lxor (Z.lxor (rotr 6 x) (rotr 11 x)) (rotr 25 x).

Definition sigma0 (x : Z) : Z :=
  Z.lxor (Z.lxor (rotr 7 x) (rotr 18 x)) (Z.shiftr x 3).

Definition sigma1 (x : Z) : Z :=
  Z.lxor (Z.lxor (rotr 17 x) (rotr 19 x)) (Z.shiftr x 10).

(** The constants are fractional parts of roots of the first primes:
    the first 32 bits of the cube roots of the first 64 primes for [K],
    of the square roots of the first 8 primes for [H0]. *)
Definition is_prime (n : nat) : bool :=
  forallb (fun d => negb (Nat.eqb (Nat.modulo n d) 0)) (seq 2 (n - 2)).

Definition primes : list Z :=
  map Z.of_nat (filter is_prime (seq 2 310)).

(** The integer cube root of [n], built bit by bit from bit [bits - 1]. *)
Fixpoint cube_root (bits : nat) (n x : Z) : Z :=
  match bits with
  | O => x
  | S b =>
      let y := x + 2 ^ Z.of_nat b in
      cube_root b n (if y * y * y <=? n then y else x)
  end.

Definition K : list Z :=
  map (fun p => w32 (cube_root 40 (p * 2 ^ 96) 0)) primes.

Definition H0 : list Z :=
  map (fun p => w32 (Z.sqrt (p * 2 ^ 64))) (firstn 8 primes).

(** Big-endian rendering of [x] on [n] bytes. *)
Fixpoint be_bytes (n : nat) (x : Z) : list Z :=
  match n with
  | O => []
  | S m => Z.shiftr x (8 * Z.of_nat m) mod 256 :: be_bytes m x
  end.

Definition be_word (bs : list Z) : Z :=
  fold_left (fun acc b => acc * 256 + b) bs 0.

(** Padding: the byte 0x80, zero bytes up to 56 modulo 64, and the bit
    length of the message on eight bytes. *)
Definition pad (msg : list Z) : list Z :=
  let len := Z.of_nat (List.length msg) in
  let zeros := Z.to_nat ((55 - len) mod 64) in
  (msg ++ [0x80] ++ repeat 0 zeros ++ be_bytes 8 (8 * len))%list.

Fixpoint chunks (fuel n : nat) (l : list Z) : list (list Z) :=
  match fuel with
  | O => []
  | S fuel' =>
      match l with
      | [] => []
      | _ => firstn n l :: chunks fuel' n (skipn n l)
      end
  end.

Definition blocks (l : list Z) : list (list Z) :=
  chunks (List.length l) 64 l.

(** The message schedule, kept newest word first: with [rev_w] holding
    W(t-1), W(t-2), ..., the next word is
    sigma1 W(t-2) + W(t-7) + sigma0 W(t-15) + W(t-16). *)
Fixpoint extend (n : nat) (rev_w : list Z) : list Z :=
  match n with
  | O => rev_w
  | S m =>
      let w :=
        add32 (add32 (sigma1 (nth 1 rev_w 0)) (nth 6 rev_w 0))
              (add32 (sigma0 (nth 14 rev_w 0)) (nth 15 rev_w 0)) in
      extend m (w :: rev_w)
  end.

Definition schedule (block : list Z) : list Z :=
  let w16 := map be_word (chunks 16 4 block) in
  rev (extend 48 (rev w16)).

Record regs := Regs { ra : Z; rb : Z; rc : Z; rd : Z;
                      re : Z; rf : Z; rg : Z; rh : Z }.

Definition round (r : regs) (kw : Z * Z) : regs :=
  let '(k, w) := kw in
  let t1 := add32 (add32 (add32 (rh r) (Sigma1 (re r)))
                         (add32 (Ch (re r) (rf r) (rg r)) k)) w in
  let t2 := add32 (Sigma0 (ra r)) (Maj (ra r) (rb r) (rc r)) in
  Regs (add32 t1 t2) (ra r) (rb r) (rc r)
       (add32 (rd r) t1) (re r) (rf r) (rg r).

Definition regs_of (h : list Z) : regs :=
  Regs (nth 0 h 0) (nth 1 h 0) (nth 2 h 0) (nth 3 h 0)
       (nth 4 h 0) (nth 5 h 0) (nth 6 h 0) (nth 7 h 0).

Definition list_of (r : regs) : list Z :=
  [ra r; rb r; rc r; rd r; re r; rf r; rg r; rh r].

Definition compress (h : list Z) (block : list Z) : list Z :=
  let r := fold_left round (combine K (schedule block)) (regs_of h) in
  map (fun p => add32 (fst p) (snd p)) (combine h (list_of r)).

(** The 32 bytes of the digest. *)
Definition digest (msg : list Z) : list Z :=
  flat_map (be_bytes 4) (fold_left compress (blocks (pad msg)) H0).

Definition hex_digit (d : Z) : ascii :=
  if d <? 10 then ascii_of_nat (Z.to_nat (48 + d))
  else ascii_of_nat (Z.to_nat (87 + d)).

Fixpoint hex_of_bytes (bs : list Z) : string :=
  match bs with
  | [] => EmptyString
  | b :: rest =>
      String (hex_digit (b / 16)) (String (hex_digit (b mod 16))
             (hex_of_bytes rest))
  end.

(** [hashlib.sha256(data).hexdigest()]: 64 lower-case hexadecimal
    characters. *)
Definition hexdigest (msg : list Z) : string := hex_of_bytes (digest msg).

End Sha256.

(** ** Python strings *)

(** [s.encode()]: the UTF-8 bytes of [s]. *)
Definition encode (s : string) : list Z :=
  map (fun c => Z.of_nat (nat_of_ascii c)) (list_ascii_of_string s).

(** [str(n)] for an [int], as an f-string renders it: decimal digits,
    with a leading minus sign for a negative number. *)
Definition str_of_int (n : Z) : string :=
  NilZero.string_of_int (Z.to_int n).

(** [s[:n]] *)
Fixpoint prefix (n : nat) (s : string) : string :=
  match n, s with
  | S m, String c rest => String c (prefix m rest)
  | _, _ => EmptyString
  end.

(** ** Exceptions and results *)

Inductive Exn :=
| ValueError
| TypeError
| OverflowError
| IntegrityError.   (* sqlite3.IntegrityError, a sqlite3.Error *)

Inductive result (A : Type) :=
| Ok (a : A)
| Raise (e : Exn).

Arguments Ok {A} a.
Arguments Raise {A} e.

(** ** The database ([DatabaseManager], the tables the manager uses) *)

(** A row of [qr_sessions], in the order of the columns the code names.
    [created_at] is the column default [CURRENT_TIMESTAMP]. *)
Record QrRow := mkQrRow {
  row_session_id : string;
  row_class_id : Z;
  row_teacher_id : string;
  row_created_at : Z;
  row_expires_at : Z;
  row_is_active : bool
}.

(** A row of [attendance]; [attendance_date] is a day number
    ([now / 86400], the UTC calendar date). *)
Record AttRow := mkAttRow {
  att_student_id : string;
  att_class_id : Z;
  att_date : Z;
  att_status : string;
  att_marked_at : Z
}.

Record ClassRow := mkClassRow {
  cls_id : Z;
  cls_name : string;
  cls_teacher_id : string;
  cls_code : string
}.

(** The statements that change a table, as the code issues them. *)
Inductive Write :=
| DeactivateTeacher (teacher : string)
    (* UPDATE qr_sessions SET is_active = 0 WHERE teacher_id = ? AND is_active = 1 *)
| InsertSession (r : QrRow)
    (* INSERT INTO qr_sessions (...) VALUES (?, ?, ?, ?, 1) *)
| DeactivateSession (sid : string)
    (* UPDATE qr_sessions SET is_active = 0 WHERE session_id = ? *)
| InsertAttendance (r : AttRow).
    (* INSERT INTO attendance (student_id, class_id, attendance_date) ... *)

(** The committed state of the database: the tables in rowid order and
    the journal of committed writes, oldest first. *)
Record Db := mkDb {
  qr_sessions : list QrRow;
  attendance : list AttRow;
  classes : list ClassRow;
  journal : list Write
}.

Definition deactivate (r : QrRow) : QrRow :=
  mkQrRow (row_session_id r) (row_class_id r) (row_teacher_id r)
          (row_created_at r) (row_expires_at r) false.

(** UPDATE qr_sessions SET is_active = 0 WHERE teacher_id = ? AND is_active = 1 *)
Definition sql_deactivate_teacher (teacher : string) (rows : list QrRow)
  : list QrRow :=
  map (fun r => if (row_teacher_id r =? teacher)%string && row_is_active r
                then deactivate r else r) rows.

(** UPDATE qr_sessions SET is_active = 0 WHERE session_id = ? *)
Definition sql_deactivate_session (sid : string) (rows : list QrRow)
  : list QrRow :=
  map (fun r => if (row_session_id r =? sid)%string
                then deactivate r else r) rows.

(** INSERT INTO qr_sessions: [session_id] is UNIQUE. *)
Definition sql_insert_session (r : QrRow) (rows : list QrRow)
  : result (list QrRow) :=
  if existsb (fun r' => (row_session_id r' =? row_session_id r)%string) rows
  then Raise IntegrityError
  else Ok (rows ++ [r])%list.

(** SELECT ... FROM qr_sessions WHERE is_active = 1
    ORDER BY created_at DESC LIMIT 1.
    Among rows created at the same timestamp SQL leaves the choice
    open; the model takes the one met first in rowid order. *)
Fixpoint newest (best : option QrRow) (rows : list QrRow) : option QrRow :=
  match rows with
  | [] => best
  | r :: rest =>
      match best with
      | None => newest (Some r) rest
      | Some b =>
          if row_created_at b <? row_created_at r
          then newest (Some r) rest
          else newest best rest
      end
  end.

Definition sql_most_recent_active (rows : list QrRow) : option QrRow :=
  newest None (filter row_is_active rows).

Definition same_mark (student : string) (class_id date : Z) (a : AttRow)
  : bool :=
  (att_student_id a =? student)%string
  && (att_class_id a =? class_id) && (att_date a =? date).

(** SELECT 1 FROM attendance WHERE student_id = ? AND class_id = ?
    AND attendance_date = ? *)
Definition sql_attendance_exists (student : string) (class_id date : Z)
                                 (rows : list AttRow) : bool :=
  existsb (same_mark student class_id date) rows.

(** INSERT INTO attendance: UNIQUE(student_id, class_id, attendance_date). *)
Definition sql_insert_attendance (a : AttRow) (rows : list AttRow)
  : result (list AttRow) :=
  if existsb (same_mark (att_student_id a) (att_class_id a) (att_date a)) rows
  then Raise IntegrityError
  else Ok (rows ++ [a])%list.

(** SELECT id, class_name FROM classes WHERE class_code = ? AND teacher_id = ? *)
Definition sql_find_class (code teacher : string) (rows : list ClassRow)
  : option ClassRow :=
  find (fun c => (cls_code c =? code)%string
                 && (cls_teacher_id c =? teacher)%string) rows.

Definition set_qr_sessions (d : Db) (rows : list QrRow) (w : list Write) : Db :=
  mkDb rows (attendance d) (classes d) (journal d ++ w)%list.

Definition set_attendance (d : Db) (rows : list AttRow) (w : list Write) : Db :=
  mkDb (qr_sessions d) rows (classes d) (journal d ++ w)%list.

(** ** The session manager ([QRCodeManager]) *)

Definition TOKEN_WINDOW_SECONDS : Z := 30.

(** The dict kept in [self.active_session]. *)
Record Session := mkSession {
  session_id : string;
  class_id : Z;
  teacher_id : string;
  expires_at : Z
}.

(** The process: the database and the manager's cache
    ([None] is the empty dict). *)
Record World := mkWorld {
  db : Db;
  active_session : option Session
}.

(** [datetime] arithmetic: [timedelta(minutes=m)] holds at most
    999999999 days in magnitude, and a [datetime] lies in the years
    1 to 9999; outside, Python raises [OverflowError]. *)
Definition datetime_min : Z := -62135596800.
Definition datetime_max : Z := 253402300799.

Definition timedelta_minutes (m : Z) : result Z :=
  let days := (m * 60) / 86400 in
  if (-999999999 <=? days) && (days <=? 999999999)
  then Ok (m * 60) else Raise OverflowError.

Definition datetime_add (t delta : Z) : result Z :=
  let r := t + delta in
  if (datetime_min <=? r) && (r <=? datetime_max)
  then Ok r else Raise OverflowError.

(** [_load_active_session_from_db] *)
Definition _load_active_session_from_db (now : Z) (w : World) : World :=
  match sql_most_recent_active (qr_sessions (db w)) with
  | Some row =>
      let expires_at := row_expires_at row in
      if now <? expires_at then
        mkWorld (db w)
                (Some (mkSession (row_session_id row) (row_class_id row)
                                 (row_teacher_id row) expires_at))
      else
        mkWorld (set_qr_sessions (db w)
                   (sql_deactivate_session (row_session_id row)
                                           (qr_sessions (db w)))
                   [DeactivateSession (row_session_id row)])
                (active_session w)
  | None => w
  end.

(** [start_session]; [uuid4] is the identifier drawn by [uuid.uuid4()].
    The two statements run in one transaction: when the INSERT raises,
    the connection is closed without a commit and nothing is kept. *)
Definition start_session (now : Z) (uuid4 : string)
    (class_id : Z) (teacher_id : string) (duration_minutes : Z) (w : World)
  : result Session * World :=
  match timedelta_minutes duration_minutes with
  | Raise e => (Raise e, w)
  | Ok delta =>
  match datetime_add now delta with
  | Raise e => (Raise e, w)
  | Ok expires_at =>
      let rows1 := sql_deactivate_teacher teacher_id (qr_sessions (db w)) in
      let row := mkQrRow uuid4 class_id teacher_id now expires_at true in
      match sql_insert_session row rows1 with
      | Raise e => (Raise e, w)
      | Ok rows2 =>
          let s := mkSession uuid4 class_id teacher_id expires_at in
          (Ok s,
           mkWorld (set_qr_sessions (db w) rows2
                      [DeactivateTeacher teacher_id; InsertSession row])
                   (Some s))
      end
  end
  end.

(** [stop_session] *)
Definition stop_session (w : World) : bool * World :=
  let d :=
    match active_session w with
    | Some s =>
        set_qr_sessions (db w)
          (sql_deactivate_session (session_id s) (qr_sessions (db w)))
          [DeactivateSession (session_id s)]
    | None => db w
    end in
  (true, mkWorld d None).

(** [_ensure_session_is_active] *)
Definition _ensure_session_is_active (now : Z) (w : World) : World :=
  match active_session w with
  | None => _load_active_session_from_db now w
  | Some s =>
      if expires_at s <=? now
      then _load_active_session_from_db now w
      else w
  end.

(** The dict returned by [get_current_token]. *)
Record TokenData := mkTokenData {
  td_token : string;
  td_session_id : string
}.

(** [get_current_token] *)
Definition get_current_token (now : Z) (w : World)
  : option TokenData * World :=
  let w1 := _ensure_session_is_active now w in
  match active_session w1 with
  | None => (None, w1)
  | Some s =>
      let token_window := now / TOKEN_WINDOW_SECONDS in
      let token_data := session_id s ++ ":" ++ str_of_int token_window in
      let token_hash := prefix 16 (Sha256.hexdigest (encode token_data)) in
      (Some (mkTokenData token_hash (session_id s)), w1)
  end.

(** [validate_token]: the loop over the offsets (0, -1). *)
Fixpoint check_offsets (token session_id : string) (current_window : Z)
                       (offsets : list Z) : bool :=
  match offsets with
  | [] => false
  | offset :: rest =>
      let token_window := current_window + offset in
      let expected_token :=
        prefix 16 (Sha256.hexdigest
                     (encode (session_id ++ ":" ++ str_of_int token_window))) in
      if (token =? expected_token)%string then true
      else check_offsets token session_id current_window rest
  end.

Definition validate_token (now : Z) (token session_id' : string) (w : World)
  : bool * World :=
  let w1 := _ensure_session_is_active now w in
  match active_session w1 with
  | None => (false, w1)
  | Some s =>
      if negb (session_id s =? session_id')%string then (false, w1)
      else
        let current_window := now / TOKEN_WINDOW_SECONDS in
        (check_offsets token session_id' current_window [0; -1], w1)
  end.

(** ** The routes *)

(** The Flask session of the caller: [login] stores [user_id] and
    [role] together and [session.clear()] drops both. *)
Record Login := mkLogin {
  user_id : string;
  role : string
}.

Definition FlaskSession := option Login.

Definition has_role (r : string) (session : FlaskSession) : bool :=
  match session with
  | Some l => (role l =? r)%string
  | None => false
  end.

(** The JSON bodies the routes answer with. *)
Inductive Body :=
| BError (msg : string)                   (* {"error": msg} *)
| BResult (success : bool) (msg : string) (* {"success": b, "message": msg} *)
| BToken (token session_id : string) (expires_at : option Z)
| BStarted (session_id class_name : string) (expires_at : Z).

Record Response := mkResponse {
  status : Z;
  body : Body
}.

(** [stop_qr] *)
Definition stop_qr (session : FlaskSession) (w : World) : Response * World :=
  if negb (has_role "teacher" session) then
    (mkResponse 403 (BError "Only teachers can perform this action."), w)
  else
    let '(_, w1) := stop_session w in
    (mkResponse 200 (BResult true "QR session has been stopped."), w1).

(** [logout]: answers with the cleared Flask session. *)
Definition logout (session : FlaskSession) (w : World)
  : Response * FlaskSession * World :=
  let w1 := if has_role "teacher" session then snd (stop_session w) else w in
  (mkResponse 200 (BResult true "You have been logged out successfully."),
   None, w1).

(** [get_qr_token]: the route reads [expires_at] from the cache after
    the manager call has returned. *)
Definition get_qr_token (now : Z) (w : World) : Response * World :=
  let '(token_data, w1) := get_current_token now w in
  match token_data with
  | Some td =>
      let e := match active_session w1 with
               | Some s => Some (expires_at s)
               | None => None
               end in
      (mkResponse 200 (BToken (td_token td) (td_session_id td) e), w1)
  | None =>
      (mkResponse 404 (BError "There is no active QR session."), w1)
  end.

(** [scan_qr].  [token] and [session_id'] are the fields of the request
    body, [None] when absent. *)
Definition falsy_str (s : option string) : bool :=
  match s with
  | Some s' => (s' =? "")%string
  | None => true
  end.

Definition invalid_qr : Response :=
  mkResponse 400 (BResult false "The QR code is invalid or has expired.").

Definition already_marked : Response :=
  mkResponse 409
    (BResult false "You have already marked attendance for this class today.").

Definition marked : Response :=
  mkResponse 200 (BResult true "Attendance marked successfully!").

Definition database_error : Response :=
  mkResponse 500 (BResult false "A database error occurred.").

Definition no_longer_active : Response :=
  mkResponse 400 (BResult false "The QR session is no longer active.").

(** What follows the validation: the pre-check and the insert. *)
Definition mark_attendance (now : Z) (student : string) (w : World)
  : Response * World :=
  let today := now / 86400 in
  let class_id' := match active_session w with
                   | Some s => Some (class_id s)
                   | None => None
                   end in
  match class_id' with
  | None => (no_longer_active, w)
  | Some c =>
      if c =? 0 then (no_longer_active, w)
      else if sql_attendance_exists student c today (attendance (db w))
      then (already_marked, w)
      else
        let a := mkAttRow student c today "present" now in
        match sql_insert_attendance a (attendance (db w)) with
        | Ok rows =>
            (marked,
             mkWorld (set_attendance (db w) rows [InsertAttendance a])
                     (active_session w))
        | Raise _ => (database_error, w)
        end
  end.

Definition scan_qr (now : Z) (session : FlaskSession)
    (token session_id' : option string) (w : World) : Response * World :=
  match session with
  | None =>
      (mkResponse 403 (BError "Only students can perform this action."), w)
  | Some l =>
      if negb (role l =? "student")%string then
        (mkResponse 403 (BError "Only students can perform this action."), w)
      else
        match token, session_id' with
        | Some tok, Some sid =>
            if falsy_str token || falsy_str session_id' then
              (mkResponse 400
                 (BResult false "Token and session ID are required."), w)
            else
              let '(valid, w1) := validate_token now tok sid w in
              if negb valid then (invalid_qr, w1)
              else mark_attendance now (user_id l) w1
        | _, _ =>
            (mkResponse 400
               (BResult false "Token and session ID are required."), w)
        end
  end.

(** ** Requests served at the same time

    The server answers each request on its own thread.  The manager's
    methods run under its lock; the statements of [scan_qr] after the
    validation do not, and each SQLite statement is atomic.  A
    [scan_qr] request in flight is therefore at one of these points. *)
Inductive ScanThread :=
| AtValidate (session : FlaskSession) (token session_id' : option string)
| AtPrecheck (student : string)
    (* validated; next: today, class_id and the SELECT *)
| AtInsert (student : string) (class_id' today : Z)
    (* the SELECT found no row; next: the INSERT and the commit *)
| Finished (r : Response).

Definition scan_step (now : Z) (t : ScanThread) (w : World)
  : ScanThread * World :=
  match t with
  | AtValidate session token session_id' =>
      match session with
      | None =>
          (Finished (mkResponse 403
             (BError "Only students can perform this action.")), w)
      | Some l =>
          if negb (role l =? "student")%string then
            (Finished (mkResponse 403
               (BError "Only students can perform this action.")), w)
          else
            match token, session_id' with
            | Some tok, Some sid =>
                if falsy_str token || falsy_str session_id' then
                  (Finished (mkResponse 400
                     (BResult false "Token and session ID are required.")), w)
                else
                  let '(valid, w1) := validate_token now tok sid w in
                  if negb valid then (Finished invalid_qr, w1)
                  else (AtPrecheck (user_id l), w1)
            | _, _ =>
                (Finished (mkResponse 400
                   (BResult false "Token and session ID are required.")), w)
            end
      end
  | AtPrecheck student =>
      let today := now / 86400 in
      match active_session w with
      | None => (Finished no_longer_active, w)
      | Some s =>
          let c := class_id s in
          if c =? 0 then (Finished no_longer_active, w)
          else if sql_attendance_exists student c today (attendance (db w))
          then (Finished already_marked, w)
          else (AtInsert student c today, w)
      end
  | AtInsert student c today =>
      let a := mkAttRow student c today "present" now in
      match sql_insert_attendance a (attendance (db w)) with
      | Ok rows =>
          (Finished marked,
           mkWorld (set_attendance (db w) rows [InsertAttendance a])
                   (active_session w))
      | Raise _ => (Finished database_error, w)
      end
  | Finished r => (Finished r, w)
  end.

Fixpoint set_nth {A : Type} (i : nat) (x : A) (l : list A) : list A :=
  match l, i with
  | [], _ => []
  | _ :: rest, O => x :: rest
  | y :: rest, S j => y :: set_nth j x rest
  end.

(** A schedule names, step after step, the thread that runs and the
    time at which it does. *)
Fixpoint run_scans (schedule : list (nat * Z)) (pool : list ScanThread)
                   (w : World) : list ScanThread * World :=
  match schedule with
  | [] => (pool, w)
  | (i, now) :: rest =>
      match nth_error pool i with
      | Some t =>
          let '(t', w') := scan_step now t w in
          run_scans rest (set_nth i t' pool) w'
      | None => run_scans rest pool w
      end
  end.

(** ** [generate_qr] and the conversion of the [duration] field *)

(** A Python [float]: [FFinite m e] is [m * 2^e]. *)
Inductive PyFloat :=
| FFinite (m e : Z)
| FNan
| FInf (negative : bool).

(** A value of a decoded JSON body. *)
#[local] Set Warnings "-register-all".
Inductive Json :=
| JNull
| JBool (b : bool)
| JInt (n : Z)
| JFloat (f : PyFloat)
| JStr (s : string)
| JArr (items : list Json)
| JObj (fields : list (string * Json)).

#[local] Set Warnings "+register-all".

(** The fields [generate_qr] reads from the body, [None] when absent. *)
Record GenerateQrBody := mkGenerateQrBody {
  duration : option Json;
  class_code : option string
}.

Section GenerateQr.

(** [int(s)] on a [str]: the runtime's parser of integer literals, [None]
    where it raises [ValueError]. *)
Variable int_of_str : string -> option Z.

(** [int(x)] *)
Definition py_int (x : Json) : result Z :=
  match x with
  | JNull => Raise TypeError
  | JBool b => Ok (if b then 1 else 0)
  | JInt n => Ok n
  | JFloat (FFinite m e) =>
      Ok (if 0 <=? e then m * 2 ^ e else Z.quot m (2 ^ (- e)))
  | JFloat FNan => Raise ValueError
  | JFloat (FInf _) => Raise OverflowError
  | JStr s =>
      match int_of_str s with
      | Some n => Ok n
      | None => Raise ValueError
      end
  | JArr _ => Raise TypeError
  | JObj _ => Raise TypeError
  end.

(** [try: duration = int(data.get("duration", 60))
     except (ValueError, TypeError): duration = 60] *)
Definition read_duration (d : option Json) : result Z :=
  match py_int (match d with Some x => x | None => JInt 60 end) with
  | Ok n => Ok n
  | Raise ValueError => Ok 60
  | Raise TypeError => Ok 60
  | Raise e => Raise e
  end.

(** [generate_qr]; an exception that leaves the handler is the
    [Raise] of the result. *)
Definition generate_qr (now : Z) (uuid4 : string) (session : FlaskSession)
    (data : GenerateQrBody) (w : World) : result Response * World :=
  match session with
  | None =>
      (Ok (mkResponse 403 (BError "Only teachers can perform this action.")), w)
  | Some l =>
  if negb (role l =? "teacher")%string then
    (Ok (mkResponse 403 (BError "Only teachers can perform this action.")), w)
  else
    match read_duration (duration data) with
    | Raise e => (Raise e, w)
    | Ok duration' =>
        if falsy_str (class_code data) then
          (Ok (mkResponse 400 (BError "Class code is required.")), w)
        else
          let code := match class_code data with Some c => c | None => "" end in
          match sql_find_class code (user_id l) (classes (db w)) with
          | None =>
              (Ok (mkResponse 404 (BError
                 "Class not found or you are not authorized to start a session for this class.")),
               w)
          | Some class_info =>
              match start_session now uuid4 (cls_id class_info) (user_id l)
                                  duration' w with
              | (Raise e, w1) => (Raise e, w1)
              | (Ok session_data, w1) =>
                  (Ok (mkResponse 200
                         (BStarted (session_id session_data)
                                   (cls_name class_info)
                                   (expires_at session_data))), w1)
              end
          end
    end
  end.

End GenerateQr.

(** ** Sequences of manager calls *)

Inductive Op :=
| OpStart (now : Z) (uuid4 : string) (class_id : Z) (teacher_id : string)
          (duration_minutes : Z)
| OpStop
| OpToken (now : Z)
| OpValidate (now : Z) (token session_id' : string).

Definition apply_op (w : World) (o : Op) : World :=
  match o with
  | OpStart now uuid4 c t d => snd (start_session now uuid4 c t d w)
  | OpStop => snd (stop_session w)
  | OpToken now => snd (get_current_token now w)
  | OpValidate now token sid => snd (validate_token now token sid w)
  end.

Definition run_ops (ops : list Op) (w : World) : World :=
  fold_left apply_op ops w.

(** The rows of [qr_sessions] that are active for a teacher. *)
Definition active_for (teacher : string) (rows : list QrRow) : list QrRow :=
  filter (fun r => row_is_active r && (row_teacher_id r =? teacher)%string)
         rows.

Definition one_active_per_teacher (rows : list QrRow) : Prop :=
  forall teacher, (List.length (active_for teacher rows) <= 1)%nat.

(** The rows of [attendance] for a (student, class, date) triplet. *)
Definition marks_of (student : string) (class_id' date : Z)
                    (rows : list AttRow) : list AttRow :=
  filter (same_mark student class_id' date) rows.

(** A freshly initialised process: no session row, no mark, and the
    class seeded by [_create_default_data]. *)
Definition fresh_world : World :=
  mkWorld (mkDb [] [] [mkClassRow 1 "Computer Science 101" "teacher001" "CS101"]
                [])
          None.

(** The test of [active_for]. *)
Definition is_active_for (t : string) (r : QrRow) : bool :=
  row_is_active r && (row_teacher_id r =? t)%string.

(** No two marks of one student for one class and day. *)
Definition unique_marks (rows : list AttRow) : Prop :=
  forall student c d, (List.length (marks_of student c d rows) <= 1)%nat.

(** ** Sample states *)

(** The world in which the manager caches a session and the store
    holds its row. *)
Definition world_with (s : Session) (created : Z) : World :=
  mkWorld (mkDb [mkQrRow (session_id s) (class_id s) (teacher_id s)
                         created (expires_at s) true]
                [] (classes (db fresh_world)) [])
          (Some s).

Definition abc_session : Session := mkSession "abc" 1 "teacher001" 6600.

(** A teacher who owns no session. *)
Definition other_teacher : Login := mkLogin "teacher002" "teacher".

(** A parser of integer literals that accepts nothing, and the seeded
    teacher logged in. *)
Definition no_literal : string -> option Z := fun _ => None.

Definition ada : FlaskSession := Some (mkLogin "teacher001" "teacher").

(** ** The token derivation as the specification words it

    [deriveToken(sessionId, window)]: the SHA-256 hash of the UTF-8
    bytes of [sessionId + ":" + window], in hexadecimal, truncated to
    16 characters. *)
Definition deriveToken (sessionId : string) (window : Z) : string :=
  let text := sessionId ++ ":" ++ str_of_int window in
  let hash := Sha256.hexdigest (encode text) in
  prefix 16 hash.

(** [currentWindow() = floor(unixSeconds / W)] with [W = 30]. *)
Definition currentWindow (unixSeconds : Z) : Z := unixSeconds / 30.

(** ** Startup *)

(** [QRCodeManager.__init__]: an empty cache, then the reload from the
    store. *)
Definition init_manager (now : Z) (d : Db) : World :=
  _load_active_session_from_db now (mkWorld d None).

(** ** Seeding ([DatabaseManager._create_default_data]) *)

(** A row of [users]; [usr_id] is the AUTOINCREMENT key. *)
Record UserRow := mkUserRow {
  usr_id : Z;
  usr_user_id : string;
  usr_name : string;
  usr_email : string;
  usr_password_hash : string;
  usr_role : string
}.

(** A row of [users] with this [user_id] or this [email]: both columns
    are UNIQUE. *)
Definition user_conflict (uid email : string) (rows : list UserRow) : bool :=
  existsb (fun u => (usr_user_id u =? uid)%string
                    || (usr_email u =? email)%string) rows.

(** INSERT OR IGNORE INTO users (user_id, name, email, password_hash, role):
    a conflict on a UNIQUE column skips the row.  The statement names no
    id: the engine hands out the AUTOINCREMENT key of a new row (a skipped
    insert uses one up as well), so the key is an input, [key]. *)
Definition sql_insert_or_ignore_user (key : Z)
    (uid name email hash role' : string) (rows : list UserRow)
  : list UserRow :=
  if user_conflict uid email rows
  then rows
  else (rows ++ [mkUserRow key uid name email hash role'])%list.

(** A row of [classes] with this [class_code], the UNIQUE column. *)
Definition class_conflict (code : string) (rows : list ClassRow) : bool :=
  existsb (fun c => (cls_code c =? code)%string) rows.

(** INSERT OR IGNORE INTO classes (class_name, teacher_id, class_code);
    [key] as for [users]. *)
Definition sql_insert_or_ignore_class (key : Z)
    (name teacher code : string) (rows : list ClassRow) : list ClassRow :=
  if class_conflict code rows
  then rows
  else (rows ++ [mkClassRow key name teacher code])%list.

(** [_create_default_data]; the two hashes are what
    [generate_password_hash] returns for the default passwords, the three
    keys what AUTOINCREMENT hands out for the three statements. *)
Definition _create_default_data (teacher_hash student_hash : string)
    (teacher_key student_key class_key : Z)
    (tables : list UserRow * list ClassRow) : list UserRow * list ClassRow :=
  let users1 :=
    sql_insert_or_ignore_user teacher_key "teacher001" "Dr. Ada Lovelace"
      "teacher@campus.edu" teacher_hash "teacher" (fst tables) in
  let users2 :=
    sql_insert_or_ignore_user student_key "2024001" "Alan Turing"
      "student@campus.edu" student_hash "student" users1 in
  let classes1 :=
    sql_insert_or_ignore_class class_key "Computer Science 101" "teacher001"
      "CS101" (snd tables) in
  (users2, classes1).

(** ** [get_attendance_history] *)

Record HistoryRecord := mkHistoryRecord {
  hr_date : Z;
  hr_status : string;
  hr_class_name : string
}.

(** FROM attendance a JOIN classes c ON a.class_id = c.id
    WHERE a.student_id = ? *)
Definition sql_history_join (student : string) (marks : list AttRow)
                            (cls : list ClassRow) : list HistoryRecord :=
  flat_map
    (fun a =>
       if (att_student_id a =? student)%string then
         map (fun c => mkHistoryRecord (att_date a) (att_status a) (cls_name c))
             (filter (fun c => cls_id c =? att_class_id a) cls)
       else [])
    marks.

(** ORDER BY a.attendance_date DESC, as an insertion sort.  SQL leaves
    the order among records of one date to the engine: [tie r x] tells
    whether the engine puts [r] before [x] when their dates are equal,
    and is an input. *)
Fixpoint insert_desc (tie : HistoryRecord -> HistoryRecord -> bool)
    (r : HistoryRecord) (l : list HistoryRecord) : list HistoryRecord :=
  match l with
  | [] => [r]
  | x :: rest =>
      if (hr_date x <? hr_date r) || ((hr_date x =? hr_date r) && tie r x)
      then r :: l
      else x :: insert_desc tie r rest
  end.

Definition sort_desc (tie : HistoryRecord -> HistoryRecord -> bool)
    (l : list HistoryRecord) : list HistoryRecord :=
  fold_right (insert_desc tie) [] l.

(** [get_attendance_history]: the 403 response, or the records of the
    200 response. *)
Definition get_attendance_history
    (tie : HistoryRecord -> HistoryRecord -> bool)
    (session : FlaskSession) (w : World)
  : Response + list HistoryRecord :=
  match session with
  | Some l =>
      if negb (role l =? "student")%string then
        inl (mkResponse 403 (BError "Only students can perform this action."))
      else
        inr (firstn 30
               (sort_desc tie
                  (sql_history_join (user_id l) (attendance (db w))
                                    (classes (db w)))))
  | None =>
      inl (mkResponse 403 (BError "Only students can perform this action."))
  end.

(** An engine that orders the records of one date by class name. *)
Definition by_class_name (r x : HistoryRecord) : bool :=
  (hr_class_name r <=? hr_class_name x)%string.

(** ** Predicates used in the statements *)

(** A lower-case hexadecimal digit. *)
Definition is_hex (c : ascii) : bool :=
  let n := nat_of_ascii c in
  ((48 <=? n)%nat && (n <=? 57)%nat) || ((97 <=? n)%nat && (n <=? 102)%nat).

Fixpoint all_hex (s : string) : bool :=
  match s with
  | EmptyString => true
  | String c rest => is_hex c && all_hex rest
  end.

(** The dates of a list of records never increase. *)
Fixpoint descending (l : list HistoryRecord) : Prop :=
  match l with
  | [] => True
  | x :: rest =>
      (forall y, In y rest -> hr_date y <= hr_date x) /\ descending rest
  end.

(** * Properties *)

(** ** SHA-256 and string helpers: test vectors *)

Example sha256_constants :
  List.length Sha256.K = 64%nat
  /\ nth 0 Sha256.K 0 = 0x428a2f98 /\ nth 63 Sha256.K 0 = 0xc67178f2
  /\ nth 0 Sha256.H0 0 = 0x6a09e667 /\ nth 7 Sha256.H0 0 = 0x5be0cd19.
Proof. vm_compute. repeat split. Qed.

Example sha256_abc :
  Sha256.hexdigest (encode "abc")
  = "ba7816bf8f01cfea414140de5dae2223b00361a396177a9cb410ff61f20015ad".
Proof. vm_compute. reflexivity. Qed.

Example sha256_empty :
  Sha256.hexdigest []
  = "e3b0c44298fc1c149afbf4c8996fb92427ae41e4649b934ca495991b7852b855".
Proof. vm_compute. reflexivity. Qed.

Example sha256_two_blocks :
  Sha256.hexdigest (repeat 97 56)
  = "b35439a4ac6f0948b6d6f9e3c6af0f5f590ce20f1bde7090ef7970686ec6738a".
Proof. vm_compute. reflexivity. Qed.

Example str_of_int_examples :
  str_of_int 100 = "100" /\ str_of_int 0 = "0" /\ str_of_int (-7) = "-7".
Proof. repeat split. Qed.


(** ** The manager: refresh, issue, validate *)

Lemma expected_token_eq (sid : string) (k : Z) :
  prefix 16 (Sha256.hexdigest (encode (sid ++ ":" ++ str_of_int k)))
  = deriveToken sid k.
Proof. reflexivity. Qed.

Lemma check_offsets_spec (token sid : string) (k : Z) :
  check_offsets token sid k [0; -1] = true
  <-> token = deriveToken sid k \/ token = deriveToken sid (k - 1).
Proof.
  cbn [check_offsets]. rewrite !expected_token_eq.
  rewrite Z.add_0_r. replace (k + -1) with (k - 1) by lia.
  destruct (String.eqb_spec token (deriveToken sid k)) as [E0 | N0].
  - split; auto.
  - destruct (String.eqb_spec token (deriveToken sid (k - 1))) as [E1 | N1].
    + split; auto.
    + split; [discriminate | intros [E | E]; contradiction].
Qed.

(** The refresh reloads exactly when the cache is empty or holds a
    session whose expiry has been reached. *)
Lemma ensure_reloads (now : Z) (w : World) :
  (active_session w = None
   \/ exists s, active_session w = Some s /\ expires_at s <= now) ->
  _ensure_session_is_active now w = _load_active_session_from_db now w.
Proof.
  unfold _ensure_session_is_active.
  intros [E | [s [E H]]]; rewrite E; [reflexivity |].
  destruct (Z.leb_spec (expires_at s) now); [reflexivity | lia].
Qed.

Lemma ensure_keeps (now : Z) (w : World) (s : Session) :
  active_session w = Some s -> now < expires_at s ->
  _ensure_session_is_active now w = w.
Proof.
  unfold _ensure_session_is_active. intros E H. rewrite E.
  destruct (Z.leb_spec (expires_at s) now); [lia | reflexivity].
Qed.

Lemma get_current_token_spec (now : Z) (w : World) :
  get_current_token now w
  = (match active_session (_ensure_session_is_active now w) with
     | None => None
     | Some s =>
         Some (mkTokenData (deriveToken (session_id s) (currentWindow now))
                           (session_id s))
     end,
     _ensure_session_is_active now w).
Proof.
  unfold get_current_token.
  destruct (active_session (_ensure_session_is_active now w)); reflexivity.
Qed.

Lemma validate_token_spec (now : Z) (token sid : string) (w : World) :
  validate_token now token sid w
  = (match active_session (_ensure_session_is_active now w) with
     | None => false
     | Some s =>
         (session_id s =? sid)%string
         && check_offsets token sid (currentWindow now) [0; -1]
     end,
     _ensure_session_is_active now w).
Proof.
  unfold validate_token.
  destruct (active_session (_ensure_session_is_active now w)) as [s |];
    [| reflexivity].
  destruct (session_id s =? sid)%string; reflexivity.
Qed.

(** C2. For every session id [sid] and window [win], the token the
    manager issues and the tokens it accepts are [deriveToken]: the first
    16 hexadecimal characters of the SHA-256 digest of the UTF-8 bytes of
    [sid ++ ":" ++ win], the window in decimal.  It depends on [sid] and
    [win] only.  For "abc" and window 100 it is the truncation of
    SHA-256("abc:100"). *)
Theorem token_is_truncated_sha256
    (sid : string) (win : Z) (now : Z) (w : World) (s : Session) :
  active_session (_ensure_session_is_active now w) = Some s ->
  session_id s = sid ->
  now / TOKEN_WINDOW_SECONDS = win ->
  fst (get_current_token now w)
    = Some (mkTokenData
              (prefix 16 (Sha256.hexdigest
                            (encode (sid ++ ":" ++ str_of_int win))))
              sid)
  /\ (forall token,
        fst (validate_token now token sid w) = true
        <-> token = deriveToken sid win \/ token = deriveToken sid (win - 1))
  /\ deriveToken sid win
     = prefix 16 (Sha256.hexdigest (encode (sid ++ ":" ++ str_of_int win)))
  /\ deriveToken "abc" 100
     = prefix 16 (Sha256.hexdigest (encode "abc:100"))
  /\ deriveToken "abc" 100 = "0cf5f9f747568d2c".
Proof.
  intros Hs Hsid Hwin.
  split; [| split; [| split; [| split]]].
  - rewrite get_current_token_spec, Hs. cbn [fst].
    rewrite Hsid. unfold currentWindow. change 30 with TOKEN_WINDOW_SECONDS.
    rewrite Hwin. reflexivity.
  - intros token. rewrite validate_token_spec, Hs. cbn [fst]. rewrite Hsid.
    rewrite String.eqb_refl. cbn [andb]. unfold currentWindow.
    change 30 with TOKEN_WINDOW_SECONDS. rewrite Hwin.
    apply check_offsets_spec.
  - reflexivity.
  - reflexivity.
  - vm_compute. reflexivity.
Qed.

Lemma token_is_truncated_sha256_witness :
  active_session (_ensure_session_is_active 3000 (world_with abc_session 3000))
    = Some abc_session
  /\ session_id abc_session = "abc"
  /\ 3000 / TOKEN_WINDOW_SECONDS = 100
  /\ fst (get_current_token 3000 (world_with abc_session 3000))
     = Some (mkTokenData "0cf5f9f747568d2c" "abc").
Proof.
  split; [reflexivity |]. split; [reflexivity |]. split; [reflexivity |].
  destruct (token_is_truncated_sha256 "abc" 100 3000
              (world_with abc_session 3000) abc_session
              eq_refl eq_refl eq_refl) as [H _].
  rewrite H. vm_compute. reflexivity.
Defined.

Lemma issued_token (t : Z) (w w1 : World) (td : TokenData) :
  get_current_token t w = (Some td, w1) ->
  td_token td = deriveToken (td_session_id td) (currentWindow t)
  /\ option_map session_id (active_session w1) = Some (td_session_id td)
  /\ w1 = _ensure_session_is_active t w.
Proof.
  rewrite get_current_token_spec. intros H.
  injection H as Htd Hw. subst w1.
  destruct (active_session (_ensure_session_is_active t w)) as [s |];
    [| discriminate].
  injection Htd as Htd. subst td. cbn. auto.
Qed.

Lemma validate_accepts_iff (now : Z) (token sid : string) (w : World)
    (s : Session) :
  active_session (_ensure_session_is_active now w) = Some s ->
  session_id s = sid ->
  (fst (validate_token now token sid w) = true
   <-> token = deriveToken sid (currentWindow now)
       \/ token = deriveToken sid (currentWindow now - 1)).
Proof.
  intros Hs Hsid. rewrite validate_token_spec, Hs. cbn [fst].
  rewrite Hsid, String.eqb_refl. cbn [andb]. apply check_offsets_spec.
Qed.

(** C1. A token issued at time [t] for the session that is the manager's
    active one at time [t'] is accepted at [t'] when the window of [t']
    is that of [t] or the next one; a token that is neither the derived
    token of the current window nor that of the preceding one is
    rejected; and as long as the issued token does not collide with the
    derived token of another window among the two compared, acceptance
    holds if and only if the window of [t'] is the window of [t] or its
    successor, so that the token is rejected two windows later. *)
Theorem token_accepted_in_two_windows
    (t t' : Z) (w w1 : World) (td : TokenData) (s' : Session) :
  get_current_token t w = (Some td, w1) ->
  active_session (_ensure_session_is_active t' w1) = Some s' ->
  session_id s' = td_session_id td ->
  let sid := td_session_id td in
  let k := t / 30 in
  let k' := t' / 30 in
  (k' = k \/ k' = k + 1 ->
   fst (validate_token t' (td_token td) sid w1) = true)
  /\ (forall token,
        token <> deriveToken sid k' -> token <> deriveToken sid (k' - 1) ->
        fst (validate_token t' token sid w1) = false)
  /\ ((deriveToken sid k = deriveToken sid k' -> k = k') ->
      (deriveToken sid k = deriveToken sid (k' - 1) -> k = k' - 1) ->
      (fst (validate_token t' (td_token td) sid w1) = true
       <-> k' = k \/ k' = k + 1)
      /\ (k' = k + 2 ->
          fst (validate_token t' (td_token td) sid w1) = false)).
Proof.
  intros Hissue Hactive Hsid sid k k'.
  destruct (issued_token _ _ _ _ Hissue) as [Htok _].
  fold sid in Htok. change (currentWindow t) with k in Htok.
  pose proof (fun token => validate_accepts_iff t' token sid w1 s' Hactive Hsid)
    as Hiff.
  change (currentWindow t') with k' in Hiff.
  assert (A : k' = k \/ k' = k + 1 ->
              fst (validate_token t' (td_token td) sid w1) = true).
  { intros Hk. apply Hiff. rewrite Htok.
    destruct Hk as [-> | ->]; [left | right]; [reflexivity |].
    f_equal. lia. }
  split; [exact A |]. split.
  - intros token N0 N1.
    destruct (fst (validate_token t' token sid w1)) eqn:E; [| reflexivity].
    apply Hiff in E. destruct E; contradiction.
  - intros C0 C1.
    assert (B : fst (validate_token t' (td_token td) sid w1) = true
                -> k' = k \/ k' = k + 1).
    { intros E. apply Hiff in E. rewrite Htok in E.
      destruct E as [E | E]; [left; symmetry; auto | right].
      apply C1 in E. lia. }
    split; [split; assumption |].
    intros Hk.
    destruct (fst (validate_token t' (td_token td) sid w1)) eqn:E;
      [| reflexivity].
    specialize (B eq_refl). lia.
Qed.

Lemma token_accepted_in_two_windows_witness :
  let w := world_with abc_session 3000 in
  let td := mkTokenData "0cf5f9f747568d2c" "abc" in
  get_current_token 3000 w = (Some td, w)
  /\ active_session (_ensure_session_is_active 3060 w) = Some abc_session
  /\ session_id abc_session = td_session_id td
  /\ (deriveToken "abc" (3000 / 30) = deriveToken "abc" (3060 / 30)
      -> 3000 / 30 = 3060 / 30)
  /\ (deriveToken "abc" (3000 / 30) = deriveToken "abc" (3060 / 30 - 1)
      -> 3000 / 30 = 3060 / 30 - 1)
  /\ fst (validate_token 3030 "0cf5f9f747568d2c" "abc" w) = true
  /\ fst (validate_token 3060 "0cf5f9f747568d2c" "abc" w) = false.
Proof.
  intros w td.
  assert (H1 : get_current_token 3000 w = (Some td, w))
    by (vm_compute; reflexivity).
  assert (C0 : deriveToken "abc" (3000 / 30) = deriveToken "abc" (3060 / 30)
               -> 3000 / 30 = 3060 / 30)
    by (vm_compute; discriminate).
  assert (C1 : deriveToken "abc" (3000 / 30) = deriveToken "abc" (3060 / 30 - 1)
               -> 3000 / 30 = 3060 / 30 - 1)
    by (vm_compute; discriminate).
  split; [exact H1 |]. split; [reflexivity |]. split; [reflexivity |].
  split; [exact C0 |]. split; [exact C1 |]. split.
  - pose proof (token_accepted_in_two_windows 3000 3030 w w td abc_session
                  H1 eq_refl eq_refl) as T.
    cbv zeta in T. destruct T as [A _]. apply A. right. reflexivity.
  - pose proof (token_accepted_in_two_windows 3000 3060 w w td abc_session
                  H1 eq_refl eq_refl) as T.
    cbv zeta in T. destruct T as [_ [_ C]].
    destruct (C C0 C1) as [_ R]. apply R. reflexivity.
Defined.

(** ** Stopping *)

Lemma deactivate_session_inactive (sid : string) (rows : list QrRow)
    (r : QrRow) :
  In r (sql_deactivate_session sid rows) ->
  row_session_id r = sid -> row_is_active r = false.
Proof.
  unfold sql_deactivate_session. intros Hin Hsid.
  apply in_map_iff in Hin. destruct Hin as [r0 [Hr _]].
  destruct (String.eqb_spec (row_session_id r0) sid) as [E | N].
  - subst r. reflexivity.
  - subst r. contradiction.
Qed.

Lemma stop_session_empty (w : World) :
  active_session w = None -> stop_session w = (true, w).
Proof.
  destruct w as [d c]. cbn. intros ->. reflexivity.
Qed.

(** C5. [stop_session] on a manager without an active session writes
    nothing to the store, leaves the whole state as it was and returns
    [True]; from any state it returns [True] and leaves the manager
    without an active session, so that a second call changes nothing. *)
Theorem stop_session_idempotent (w : World) :
  (active_session w = None ->
   stop_session w = (true, w)
   /\ journal (db (snd (stop_session w))) = journal (db w))
  /\ fst (stop_session w) = true
  /\ active_session (snd (stop_session w)) = None
  /\ stop_session (snd (stop_session w)) = (true, snd (stop_session w)).
Proof.
  split; [| split; [| split]].
  - intros H. rewrite (stop_session_empty w H). split; reflexivity.
  - reflexivity.
  - reflexivity.
  - apply stop_session_empty. reflexivity.
Qed.

Lemma stop_session_idempotent_witness :
  active_session fresh_world = None
  /\ stop_session fresh_world = (true, fresh_world)
  /\ journal (db (snd (stop_session fresh_world))) = [].
Proof.
  split; [reflexivity |].
  exact (proj1 (stop_session_idempotent fresh_world) eq_refl).
Defined.

(** C9. [stop_session] takes no caller: a stop request of any teacher,
    and the stop done when a teacher logs out, deactivates the cached
    session in the store and empties the cache, whoever started it. *)
Theorem stop_evicts_any_teachers_session
    (w : World) (s : Session) (caller : Login) :
  active_session w = Some s ->
  role caller = "teacher" ->
  let w1 := snd (stop_qr (Some caller) w) in
  let w2 := snd (logout (Some caller) w) in
  fst (stop_qr (Some caller) w)
    = mkResponse 200 (BResult true "QR session has been stopped.")
  /\ active_session w1 = None
  /\ (forall r, In r (qr_sessions (db w1)) ->
                row_session_id r = session_id s -> row_is_active r = false)
  /\ journal (db w1) = (journal (db w) ++ [DeactivateSession (session_id s)])%list
  /\ w2 = w1
  /\ snd (fst (logout (Some caller) w)) = None.
Proof.
  intros Hs Hrole w1 w2. subst w1 w2.
  unfold stop_qr, logout, has_role. rewrite Hrole. cbn [String.eqb negb].
  change ("teacher" =? "teacher")%string with true. cbn [negb].
  unfold stop_session. rewrite Hs. cbn.
  repeat split.
  intros r Hin Hsid. eapply deactivate_session_inactive; eauto.
Qed.

Lemma stop_evicts_any_teachers_session_witness :
  let w := world_with abc_session 3000 in
  active_session w = Some abc_session
  /\ role other_teacher = "teacher"
  /\ user_id other_teacher <> teacher_id abc_session
  /\ active_session (snd (stop_qr (Some other_teacher) w)) = None
  /\ map row_is_active (qr_sessions (db (snd (stop_qr (Some other_teacher) w))))
     = [false].
Proof.
  intros w.
  split; [reflexivity |]. split; [reflexivity |]. split; [discriminate |].
  pose proof (stop_evicts_any_teachers_session w abc_session other_teacher
                eq_refl eq_refl) as T.
  cbv zeta in T. destruct T as [_ [T _]].
  split; [exact T | reflexivity].
Defined.

(** ** Validation without a matching session *)

(** C6. [validate_token] answers [False] when the manager has no active
    session after its refresh, and when the submitted session id is not
    the cached one; it is a total function to a boolean.  So
    [validate_token("deadbeefdeadbeef", "sess-x")] on a manager without
    a session is [False]. *)
Theorem validate_false_without_session
    (now : Z) (token sid : string) (w : World) :
  (active_session (_ensure_session_is_active now w) = None
   \/ exists s, active_session (_ensure_session_is_active now w) = Some s
                /\ session_id s <> sid) ->
  fst (validate_token now token sid w) = false.
Proof.
  rewrite validate_token_spec. cbn [fst].
  intros [E | [s [E N]]]; rewrite E; [reflexivity |].
  apply String.eqb_neq in N. rewrite N. reflexivity.
Qed.

Lemma validate_false_without_session_witness :
  (active_session (_ensure_session_is_active 3000 fresh_world) = None
   \/ exists s, active_session (_ensure_session_is_active 3000 fresh_world)
                = Some s /\ session_id s <> "sess-x")
  /\ fst (validate_token 3000 "deadbeefdeadbeef" "sess-x" fresh_world) = false.
Proof.
  assert (H : active_session (_ensure_session_is_active 3000 fresh_world) = None
              \/ exists s,
                   active_session (_ensure_session_is_active 3000 fresh_world)
                   = Some s /\ session_id s <> "sess-x")
    by (left; reflexivity).
  split; [exact H |].
  exact (validate_false_without_session 3000 "deadbeefdeadbeef" "sess-x"
           fresh_world H).
Defined.

(** ** The token route *)

(** C7, as amended. The token route answers with the token, the
    session id and the session's [expires_at] ([get_current_token]
    returns the first two, the route adds the third) when the manager's
    cache holds a session that has not expired, and when the cache is
    empty and the most recently created active row of the store has not
    expired, which the manager then adopts.  When the cache is empty and
    the store has no active row, or its most recently created active row
    has expired, [get_current_token] returns [None] and the route answers
    404, whatever older active rows there are. *)
Theorem qr_token_by_cache_and_newest_row (now : Z) (w : World) :
  (forall s, active_session w = Some s -> now < expires_at s ->
     fst (get_current_token now w)
     = Some (mkTokenData (deriveToken (session_id s) (currentWindow now))
                         (session_id s))
     /\ get_qr_token now w
        = (mkResponse 200
             (BToken (deriveToken (session_id s) (currentWindow now))
                     (session_id s) (Some (expires_at s))), w))
  /\ (forall row,
        active_session w = None ->
        sql_most_recent_active (qr_sessions (db w)) = Some row ->
        now < row_expires_at row ->
        get_qr_token now w
        = (mkResponse 200
             (BToken (deriveToken (row_session_id row) (currentWindow now))
                     (row_session_id row) (Some (row_expires_at row))),
           mkWorld (db w)
                   (Some (mkSession (row_session_id row) (row_class_id row)
                                    (row_teacher_id row)
                                    (row_expires_at row)))))
  /\ (active_session w = None ->
      (forall row, sql_most_recent_active (qr_sessions (db w)) = Some row ->
                   row_expires_at row <= now) ->
      fst (get_current_token now w) = None
      /\ fst (get_qr_token now w)
         = mkResponse 404 (BError "There is no active QR session.")).
Proof.
  unfold get_qr_token. rewrite get_current_token_spec.
  split; [| split].
  - intros s Hs Hlt. rewrite (ensure_keeps now w s Hs Hlt), Hs.
    split; reflexivity.
  - intros row Hc Hrow Hlt.
    rewrite ensure_reloads by (left; exact Hc).
    unfold _load_active_session_from_db. rewrite Hrow.
    destruct (Z.ltb_spec now (row_expires_at row)); [| lia].
    reflexivity.
  - intros Hc Hexp.
    rewrite ensure_reloads by (left; exact Hc).
    unfold _load_active_session_from_db.
    destruct (sql_most_recent_active (qr_sessions (db w))) as [row |].
    + specialize (Hexp row eq_refl).
      destruct (Z.ltb_spec now (row_expires_at row)); [lia |].
      cbn [active_session fst]. rewrite Hc. split; reflexivity.
    + rewrite Hc. split; reflexivity.
Qed.

Lemma qr_token_by_cache_and_newest_row_witness :
  let w := world_with abc_session 3000 in
  let cold := mkWorld (db w) None in
  let row := mkQrRow "abc" 1 "teacher001" 3000 6600 true in
  active_session w = Some abc_session
  /\ 3000 < expires_at abc_session
  /\ get_qr_token 3000 w
     = (mkResponse 200 (BToken "0cf5f9f747568d2c" "abc" (Some 6600)), w)
  /\ active_session cold = None
  /\ sql_most_recent_active (qr_sessions (db cold)) = Some row
  /\ 5000 < row_expires_at row
  /\ snd (get_qr_token 5000 cold) = w
  /\ (forall r, sql_most_recent_active (qr_sessions (db cold)) = Some r ->
                row_expires_at r <= 7000)
  /\ fst (get_qr_token 7000 cold)
     = mkResponse 404 (BError "There is no active QR session.").
Proof.
  intros w cold row.
  assert (Hold : forall r, sql_most_recent_active (qr_sessions (db cold))
                           = Some r -> row_expires_at r <= 7000).
  { intros r E. injection E as <-. discriminate. }
  destruct (qr_token_by_cache_and_newest_row 3000 w) as [Hcached _].
  destruct (qr_token_by_cache_and_newest_row 5000 cold) as [_ [Hadopt _]].
  destruct (qr_token_by_cache_and_newest_row 7000 cold) as [_ [_ Hnone]].
  split; [reflexivity |]. split; [reflexivity |]. split.
  { rewrite (proj2 (Hcached abc_session eq_refl eq_refl)).
    vm_compute. reflexivity. }
  split; [reflexivity |]. split; [reflexivity |]. split; [reflexivity |].
  split.
  { rewrite (Hadopt row eq_refl eq_refl eq_refl). reflexivity. }
  split; [exact Hold |].
  exact (proj2 (Hnone eq_refl Hold)).
Defined.

(** C7, against the claim as it stands: three teachers start sessions
    s-A (two hours), s-B (one minute) and s-C, and s-C is stopped.  At
    time 3000 the row of s-A is active and has not expired, yet the
    reload looks at the newest active row only, s-B, which has expired:
    [get_current_token] returns [None] and the route answers 404. *)
Lemma live_session_hidden_by_expired_row :
  let w := run_ops [OpStart 1000 "s-A" 1 "teacher001" 120;
                    OpStart 2000 "s-B" 2 "teacher002" 1;
                    OpStart 2500 "s-C" 3 "teacher003" 60;
                    OpStop] fresh_world in
  active_session w = None
  /\ map (fun r => (row_session_id r, row_is_active r, row_expires_at r))
         (qr_sessions (db w))
     = [("s-A", true, 8200); ("s-B", true, 2060); ("s-C", false, 6100)]
  /\ (exists row, In row (qr_sessions (db w)) /\ row_is_active row = true
                  /\ 3000 < row_expires_at row)
  /\ fst (get_current_token 3000 w) = None
  /\ fst (get_qr_token 3000 w)
     = mkResponse 404 (BError "There is no active QR session.").
Proof.
  cbv zeta. split; [reflexivity |]. split; [reflexivity |]. split.
  - exists (mkQrRow "s-A" 1 "teacher001" 1000 8200 true).
    split; [left; reflexivity |]. split; reflexivity.
  - split; reflexivity.
Qed.

(** ** One active session per teacher *)

Lemma active_for_app (t : string) (l1 l2 : list QrRow) :
  active_for t (l1 ++ l2) = (active_for t l1 ++ active_for t l2)%list.
Proof. apply filter_app. Qed.

Lemma active_for_cons (t : string) (r : QrRow) (rows : list QrRow) :
  active_for t (r :: rows)
  = if is_active_for t r then r :: active_for t rows else active_for t rows.
Proof. reflexivity. Qed.

Lemma deactivate_teacher_cons (t : string) (r : QrRow) (rows : list QrRow) :
  sql_deactivate_teacher t (r :: rows)
  = (if (row_teacher_id r =? t)%string && row_is_active r
     then deactivate r else r) :: sql_deactivate_teacher t rows.
Proof. reflexivity. Qed.

Lemma active_for_deactivate_teacher_same (t : string) (rows : list QrRow) :
  active_for t (sql_deactivate_teacher t rows) = [].
Proof.
  induction rows as [| r rows IH]; [reflexivity |].
  rewrite deactivate_teacher_cons, active_for_cons, IH.
  unfold is_active_for.
  destruct (row_teacher_id r =? t)%string eqn:E;
    destruct (row_is_active r) eqn:A; cbn [andb deactivate row_is_active];
    rewrite ?A, ?E; reflexivity.
Qed.

Lemma active_for_deactivate_teacher_other (t t' : string)
    (rows : list QrRow) :
  t' <> t ->
  active_for t' (sql_deactivate_teacher t rows) = active_for t' rows.
Proof.
  intros N. induction rows as [| r rows IH]; [reflexivity |].
  rewrite deactivate_teacher_cons, !active_for_cons, IH.
  destruct (String.eqb_spec (row_teacher_id r) t) as [E | E];
    destruct (row_is_active r) eqn:A; cbn [andb]; try reflexivity.
  unfold is_active_for. cbn [deactivate row_is_active row_teacher_id andb].
  rewrite A, E. cbn [andb].
  destruct (String.eqb_spec t t') as [E' | _];
    [symmetry in E'; contradiction | reflexivity].
Qed.

Lemma active_for_deactivate_session_le (t sid : string) (rows : list QrRow) :
  (List.length (active_for t (sql_deactivate_session sid rows))
   <= List.length (active_for t rows))%nat.
Proof.
  induction rows as [| r rows IH]; [apply Nat.le_refl |].
  change (sql_deactivate_session sid (r :: rows))
    with ((if (row_session_id r =? sid)%string then deactivate r else r)
          :: sql_deactivate_session sid rows).
  rewrite !active_for_cons.
  destruct (row_session_id r =? sid)%string.
  - change (is_active_for t (deactivate r)) with false.
    destruct (is_active_for t r); cbn [List.length]; lia.
  - destruct (is_active_for t r); cbn [List.length]; lia.
Qed.

Lemma insert_session_ok (r : QrRow) (rows rows' : list QrRow) :
  sql_insert_session r rows = Ok rows' ->
  rows' = (rows ++ [r])%list
  /\ forall r', In r' rows -> row_session_id r' <> row_session_id r.
Proof.
  unfold sql_insert_session.
  destruct (existsb _ rows) eqn:E; [discriminate |].
  intros H. injection H as <-. split; [reflexivity |].
  intros r' Hin Heq.
  assert (X : existsb (fun r'0 => (row_session_id r'0 =? row_session_id r)%string)
                      rows = true).
  { apply existsb_exists. exists r'. split; [exact Hin |].
    apply String.eqb_eq. exact Heq. }
  congruence.
Qed.

(** What a successful [start_session] leaves behind. *)
Lemma start_session_ok (now : Z) (uuid4 : string) (c : Z) (t : string)
    (d : Z) (w w' : World) (s : Session) :
  start_session now uuid4 c t d w = (Ok s, w') ->
  let row := mkQrRow uuid4 c t now (expires_at s) true in
  s = mkSession uuid4 c t (expires_at s)
  /\ qr_sessions (db w')
     = (sql_deactivate_teacher t (qr_sessions (db w)) ++ [row])%list
  /\ journal (db w')
     = (journal (db w) ++ [DeactivateTeacher t; InsertSession row])%list
  /\ active_session w' = Some s
  /\ (forall r', In r' (qr_sessions (db w)) -> row_session_id r' <> uuid4).
Proof.
  unfold start_session.
  destruct (timedelta_minutes d) as [delta | e]; [| discriminate].
  destruct (datetime_add now delta) as [e_at | e]; [| discriminate].
  destruct (sql_insert_session _ _) as [rows2 | e] eqn:I; [| discriminate].
  intros H. injection H as <- <-. cbn.
  apply insert_session_ok in I. destruct I as [-> Hfresh].
  repeat split.
  intros r' Hin.
  assert (In (if (row_teacher_id r' =? t)%string && row_is_active r'
              then deactivate r' else r')
             (sql_deactivate_teacher t (qr_sessions (db w)))) as Hin'.
  { unfold sql_deactivate_teacher.
    apply (in_map (fun r => if (row_teacher_id r =? t)%string && row_is_active r
                            then deactivate r else r)). exact Hin. }
  apply Hfresh in Hin'. cbn in Hin'.
  destruct ((row_teacher_id r' =? t)%string && row_is_active r');
    exact Hin'.
Qed.

Lemma start_session_failed (now : Z) (uuid4 : string) (c : Z) (t : string)
    (d : Z) (w : World) (e : Exn) (w' : World) :
  start_session now uuid4 c t d w = (Raise e, w') -> w' = w.
Proof.
  unfold start_session.
  destruct (timedelta_minutes d) as [delta | e1];
    [| intros H; injection H as _ <-; reflexivity].
  destruct (datetime_add now delta) as [e_at | e1];
    [| intros H; injection H as _ <-; reflexivity].
  destruct (sql_insert_session _ _) as [rows2 | e1];
    [discriminate | intros H; injection H as _ <-; reflexivity].
Qed.

Lemma start_session_keeps_invariant (now : Z) (uuid4 : string) (c : Z)
    (t : string) (d : Z) (w : World) :
  one_active_per_teacher (qr_sessions (db w)) ->
  one_active_per_teacher
    (qr_sessions (db (snd (start_session now uuid4 c t d w)))).
Proof.
  intros Inv.
  destruct (start_session now uuid4 c t d w) as [[s | e] w'] eqn:E.
  - apply start_session_ok in E. cbv zeta in E.
    destruct E as [_ [Hrows _]]. cbn [snd]. rewrite Hrows.
    intros t'. rewrite active_for_app.
    destruct (String.eqb_spec t' t) as [-> | N].
    + rewrite active_for_deactivate_teacher_same.
      cbn [active_for filter row_is_active row_teacher_id andb app].
      destruct (t =? t)%string; cbn [List.length]; lia.
    + rewrite (active_for_deactivate_teacher_other t t' _ N).
      cbn [active_for filter row_is_active row_teacher_id andb].
      destruct (String.eqb_spec t t') as [E' | _];
        [symmetry in E'; contradiction |].
      rewrite app_nil_r. apply Inv.
  - apply start_session_failed in E. subst w'. exact Inv.
Qed.

Lemma deactivate_session_keeps_invariant (sid : string) (rows : list QrRow) :
  one_active_per_teacher rows ->
  one_active_per_teacher (sql_deactivate_session sid rows).
Proof.
  intros Inv t.
  pose proof (active_for_deactivate_session_le t sid rows).
  specialize (Inv t). lia.
Qed.

Lemma load_keeps_invariant (now : Z) (w : World) :
  one_active_per_teacher (qr_sessions (db w)) ->
  one_active_per_teacher
    (qr_sessions (db (_load_active_session_from_db now w))).
Proof.
  intros Inv. unfold _load_active_session_from_db.
  destruct (sql_most_recent_active (qr_sessions (db w))) as [row |];
    [| exact Inv].
  destruct (now <? row_expires_at row); cbn; [exact Inv |].
  apply deactivate_session_keeps_invariant. exact Inv.
Qed.

Lemma ensure_keeps_invariant (now : Z) (w : World) :
  one_active_per_teacher (qr_sessions (db w)) ->
  one_active_per_teacher
    (qr_sessions (db (_ensure_session_is_active now w))).
Proof.
  intros Inv. unfold _ensure_session_is_active.
  destruct (active_session w) as [s |].
  - destruct (expires_at s <=? now);
      [apply load_keeps_invariant |]; exact Inv.
  - apply load_keeps_invariant. exact Inv.
Qed.

Lemma apply_op_keeps_invariant (w : World) (o : Op) :
  one_active_per_teacher (qr_sessions (db w)) ->
  one_active_per_teacher (qr_sessions (db (apply_op w o))).
Proof.
  intros Inv. destruct o as [now u c t d | | now | now token sid];
    cbn [apply_op].
  - apply start_session_keeps_invariant. exact Inv.
  - unfold stop_session. cbn.
    destruct (active_session w) as [s |]; cbn; [| exact Inv].
    apply deactivate_session_keeps_invariant. exact Inv.
  - rewrite get_current_token_spec. cbn [snd].
    apply ensure_keeps_invariant. exact Inv.
  - rewrite validate_token_spec. cbn [snd].
    apply ensure_keeps_invariant. exact Inv.
Qed.

Lemma run_ops_keeps_invariant (ops : list Op) (w : World) :
  one_active_per_teacher (qr_sessions (db w)) ->
  one_active_per_teacher (qr_sessions (db (run_ops ops w))).
Proof.
  revert w. induction ops as [| o ops IH]; intros w Inv; [exact Inv |].
  cbn [run_ops fold_left]. apply IH. apply apply_op_keeps_invariant.
  exact Inv.
Qed.

Lemma deactivate_teacher_in (t : string) (rows : list QrRow) (r : QrRow) :
  In r (sql_deactivate_teacher t rows) ->
  exists r0, In r0 rows
             /\ row_session_id r = row_session_id r0
             /\ (row_teacher_id r0 = t -> row_is_active r = false).
Proof.
  unfold sql_deactivate_teacher. intros Hin.
  apply in_map_iff in Hin. destruct Hin as [r0 [Hr Hin]].
  exists r0. split; [exact Hin |].
  destruct (String.eqb_spec (row_teacher_id r0) t) as [E | N];
    destruct (row_is_active r0) eqn:A; cbn [andb] in Hr; subst r;
    cbn [deactivate row_session_id row_is_active]; split; auto;
    intros; contradiction.
Qed.

(** C3. From a store with at most one active row per teacher (the
    empty store of a fresh database is one), every sequence of manager
    calls leaves at most one active row per teacher.  Two successful
    [start_session] calls for one teacher leave exactly one active row
    for that teacher, the second session's; the first session's row is
    inactive, and the second call's writes are the deactivation followed
    by the insertion. *)
Theorem one_active_session_per_teacher :
  (forall ops w,
      one_active_per_teacher (qr_sessions (db w)) ->
      one_active_per_teacher (qr_sessions (db (run_ops ops w))))
  /\ (forall ops,
      one_active_per_teacher (qr_sessions (db (run_ops ops fresh_world))))
  /\ (forall w now1 u1 c1 d1 now2 u2 c2 d2 teacher s1 w1 s2 w2,
      start_session now1 u1 c1 teacher d1 w = (Ok s1, w1) ->
      start_session now2 u2 c2 teacher d2 w1 = (Ok s2, w2) ->
      let row2 := mkQrRow u2 c2 teacher now2 (expires_at s2) true in
      active_for teacher (qr_sessions (db w2)) = [row2]
      /\ List.length (active_for teacher (qr_sessions (db w2))) = 1%nat
      /\ (forall r, In r (qr_sessions (db w2)) ->
                    row_session_id r = session_id s1 ->
                    row_is_active r = false)
      /\ journal (db w2)
         = (journal (db w1)
            ++ [DeactivateTeacher teacher; InsertSession row2])%list).
Proof.
  split; [exact run_ops_keeps_invariant |]. split.
  - intros ops. apply run_ops_keeps_invariant. intros t. cbn. lia.
  - intros w now1 u1 c1 d1 now2 u2 c2 d2 teacher s1 w1 s2 w2 H1 H2 row2.
    apply start_session_ok in H1. apply start_session_ok in H2.
    cbv zeta in H1, H2.
    destruct H1 as [Hs1 [Hrows1 [_ [_ Hfresh1]]]].
    destruct H2 as [_ [Hrows2 [Hj2 [_ Hfresh2]]]].
    assert (Hact : active_for teacher (qr_sessions (db w2)) = [row2]).
    { rewrite Hrows2, active_for_app, active_for_deactivate_teacher_same.
      rewrite active_for_cons. unfold is_active_for.
      cbn [row_is_active row_teacher_id andb].
      rewrite String.eqb_refl. reflexivity. }
    split; [exact Hact |]. split; [rewrite Hact; reflexivity |].
    split; [| exact Hj2].
    intros r Hin Hid. rewrite Hs1 in Hid. cbn [session_id] in Hid.
    rewrite Hrows2 in Hin. apply in_app_iff in Hin.
    destruct Hin as [Hin | [<- | []]].
    + apply deactivate_teacher_in in Hin.
      destruct Hin as [r0 [Hin0 [Hid0 Hoff]]].
      rewrite Hrows1 in Hin0. apply in_app_iff in Hin0.
      destruct Hin0 as [Hin0 | [<- | []]].
      * apply deactivate_teacher_in in Hin0.
        destruct Hin0 as [r00 [Hin00 [Hid00 _]]].
        exfalso. apply (Hfresh1 r00 Hin00). congruence.
      * apply Hoff. reflexivity.
    + exfalso. cbn [row_session_id] in Hid.
      apply (Hfresh2 (mkQrRow u1 c1 teacher now1 (expires_at s1) true)).
      * rewrite Hrows1. apply in_app_iff. right. left. reflexivity.
      * cbn [row_session_id]. symmetry. exact Hid.
Qed.

Lemma one_active_session_per_teacher_witness :
  let r1 := start_session 1000 "s-1" 1 "teacher001" 60 fresh_world in
  let r2 := start_session 2000 "s-2" 1 "teacher001" 60 (snd r1) in
  one_active_per_teacher (qr_sessions (db fresh_world))
  /\ r1 = (Ok (mkSession "s-1" 1 "teacher001" 4600), snd r1)
  /\ r2 = (Ok (mkSession "s-2" 1 "teacher001" 5600), snd r2)
  /\ one_active_per_teacher (qr_sessions (db (snd r2)))
  /\ map row_session_id (active_for "teacher001" (qr_sessions (db (snd r2))))
     = ["s-2"]
  /\ map row_is_active (qr_sessions (db (snd r2))) = [false; true].
Proof.
  intros r1 r2.
  assert (I0 : one_active_per_teacher (qr_sessions (db fresh_world)))
    by (intros t; cbn; lia).
  assert (E1 : r1 = (Ok (mkSession "s-1" 1 "teacher001" 4600), snd r1))
    by reflexivity.
  assert (E2 : r2 = (Ok (mkSession "s-2" 1 "teacher001" 5600), snd r2))
    by reflexivity.
  destruct one_active_session_per_teacher as [Hinv [_ Htwice]].
  split; [exact I0 |]. split; [exact E1 |]. split; [exact E2 |]. split.
  - exact (Hinv [OpStart 1000 "s-1" 1 "teacher001" 60;
                 OpStart 2000 "s-2" 1 "teacher001" 60] fresh_world I0).
  - pose proof (Htwice fresh_world 1000 "s-1" 1 60 2000 "s-2" 1 60
                  "teacher001" _ _ _ _ E1 E2) as T.
    cbv zeta in T. destruct T as [T _].
    split; [rewrite T; reflexivity | reflexivity].
Defined.

(** ** Expiry *)

(** When the newest active row has expired, the reload deactivates it
    in the store and leaves the cache as it was. *)
Lemma load_expired_row (now : Z) (w : World) (row : QrRow) :
  sql_most_recent_active (qr_sessions (db w)) = Some row ->
  row_expires_at row <= now ->
  qr_sessions (db (_load_active_session_from_db now w))
    = sql_deactivate_session (row_session_id row) (qr_sessions (db w))
  /\ active_session (_load_active_session_from_db now w) = active_session w.
Proof.
  intros Hrow Hexp. unfold _load_active_session_from_db. rewrite Hrow.
  destruct (Z.ltb_spec now (row_expires_at row)); [lia |].
  split; reflexivity.
Qed.

(** A reload into an empty cache from an expired row leaves the manager
    without a session. *)
Lemma load_expired_row_empty_cache (now : Z) (w : World) (row : QrRow) :
  active_session w = None ->
  sql_most_recent_active (qr_sessions (db w)) = Some row ->
  row_expires_at row <= now ->
  active_session (_ensure_session_is_active now w) = None.
Proof.
  intros Hc Hrow Hexp.
  rewrite ensure_reloads by (left; exact Hc).
  destruct (load_expired_row now w row Hrow Hexp) as [_ H].
  rewrite H. exact Hc.
Qed.

(** No path of the refresh empties the cache. *)
Lemma refresh_never_empties_cache (now : Z) (w : World) :
  active_session w <> None ->
  active_session (_ensure_session_is_active now w) <> None.
Proof.
  intros H. unfold _ensure_session_is_active, _load_active_session_from_db.
  destruct (active_session w) as [s |] eqn:E; [| contradiction].
  destruct (expires_at s <=? now); [| rewrite E; discriminate].
  destruct (sql_most_recent_active (qr_sessions (db w))) as [row |];
    [| rewrite E; discriminate].
  destruct (now <? row_expires_at row); cbn; discriminate.
Qed.

(** C4, on the code: a session started at T = 1000 for 60 minutes
    expires at T + 3600.  At T + 3599 a token is issued.  At T + 3601 the
    refresh reloads and deactivates the expired row in the store, but the
    cache still holds the session and a token is issued all the same. *)
Theorem expired_session_still_issues_token :
  let w1 := snd (start_session 1000 "s-1" 1 "teacher001" 60 fresh_world) in
  let s := mkSession "s-1" 1 "teacher001" 4600 in
  active_session w1 = Some s
  /\ fst (get_current_token 4599 w1)
     = Some (mkTokenData (deriveToken "s-1" (4599 / 30)) "s-1")
  /\ fst (get_current_token 4601 w1)
     = Some (mkTokenData (deriveToken "s-1" (4601 / 30)) "s-1")
  /\ active_session (snd (get_current_token 4601 w1)) = Some s
  /\ map row_is_active (qr_sessions (db (snd (get_current_token 4601 w1))))
     = [false]
  /\ fst (validate_token 4601 (deriveToken "s-1" (4601 / 30)) "s-1" w1) = true.
Proof.
  cbv zeta. rewrite !get_current_token_spec. cbn [fst snd].
  split; [reflexivity |]. split; [reflexivity |]. split; [reflexivity |].
  split; [reflexivity |]. split; [reflexivity |].
  vm_compute. reflexivity.
Qed.

(** ** Scans *)

Lemma same_mark_eq (student : string) (c d : Z) (a : AttRow) :
  same_mark student c d a = true ->
  att_student_id a = student /\ att_class_id a = c /\ att_date a = d.
Proof.
  unfold same_mark. intros H.
  apply andb_true_iff in H. destruct H as [H Hd].
  apply andb_true_iff in H. destruct H as [Hs Hc].
  apply String.eqb_eq in Hs. apply Z.eqb_eq in Hc. apply Z.eqb_eq in Hd.
  auto.
Qed.

Lemma no_mark_filter (student : string) (c d : Z) (rows : list AttRow) :
  existsb (same_mark student c d) rows = false ->
  marks_of student c d rows = [].
Proof.
  unfold marks_of. induction rows as [| a rows IH]; [reflexivity |].
  cbn [existsb filter]. intros H. apply orb_false_iff in H.
  destruct H as [Ha Hrest]. rewrite Ha. apply IH. exact Hrest.
Qed.

Lemma insert_attendance_unique (a : AttRow) (rows rows' : list AttRow) :
  unique_marks rows ->
  sql_insert_attendance a rows = Ok rows' ->
  unique_marks rows'.
Proof.
  unfold sql_insert_attendance. intros U.
  destruct (existsb _ rows) eqn:E; [discriminate |].
  intros H. injection H as <-. intros student c d.
  unfold marks_of. rewrite filter_app. rewrite length_app.
  cbn [filter]. destruct (same_mark student c d a) eqn:S.
  - apply same_mark_eq in S. destruct S as [<- [<- <-]].
    apply no_mark_filter in E. unfold marks_of in E. rewrite E.
    cbn. lia.
  - cbn [List.length]. specialize (U student c d). unfold marks_of in U. lia.
Qed.

Lemma load_keeps_attendance (now : Z) (w : World) :
  attendance (db (_load_active_session_from_db now w)) = attendance (db w).
Proof.
  unfold _load_active_session_from_db.
  destruct (sql_most_recent_active _) as [row |]; [| reflexivity].
  destruct (now <? row_expires_at row); reflexivity.
Qed.

Lemma ensure_keeps_attendance (now : Z) (w : World) :
  attendance (db (_ensure_session_is_active now w)) = attendance (db w).
Proof.
  unfold _ensure_session_is_active.
  destruct (active_session w) as [s |];
    [destruct (expires_at s <=? now) |];
    try apply load_keeps_attendance; reflexivity.
Qed.

Lemma scan_step_unique (now : Z) (t : ScanThread) (w : World) :
  unique_marks (attendance (db w)) ->
  unique_marks (attendance (db (snd (scan_step now t w)))).
Proof.
  intros U. destruct t as [session token sid | student | student c d | r].
  - cbn [scan_step]. destruct session as [l |]; [| exact U].
    destruct (negb (role l =? "student")%string); [exact U |].
    destruct token as [tok |]; [| exact U].
    destruct sid as [sid |]; [| exact U].
    destruct (falsy_str (Some tok) || falsy_str (Some sid)); [exact U |].
    rewrite validate_token_spec.
    destruct (negb _); cbn [snd]; rewrite ensure_keeps_attendance; exact U.
  - cbn [scan_step]. destruct (active_session w) as [s |]; [| exact U].
    destruct (class_id s =? 0); [exact U |].
    destruct (sql_attendance_exists _ _ _ _); exact U.
  - cbn [scan_step].
    destruct (sql_insert_attendance _ _) as [rows | e] eqn:I; [| exact U].
    cbn. eapply insert_attendance_unique; eauto.
  - exact U.
Qed.

(** Whatever the schedule, the table never holds two marks of one
    student for one class and day. *)
Lemma run_scans_unique (schedule : list (nat * Z)) (pool : list ScanThread)
    (w : World) :
  unique_marks (attendance (db w)) ->
  unique_marks (attendance (db (snd (run_scans schedule pool w)))).
Proof.
  revert pool w.
  induction schedule as [| [i now] rest IH]; intros pool w U; [exact U |].
  cbn [run_scans]. destruct (nth_error pool i) as [t |]; [| apply IH, U].
  pose proof (scan_step_unique now t w U) as U'.
  destruct (scan_step now t w) as [t' w']. apply IH. exact U'.
Qed.

(** A request that runs alone goes through its three steps as the
    handler does. *)
Lemma scan_qr_alone (now : Z) (session : FlaskSession)
    (token sid : option string) (w : World) :
  run_scans [(0%nat, now); (0%nat, now); (0%nat, now)]
            [AtValidate session token sid] w
  = ([Finished (fst (scan_qr now session token sid w))],
     snd (scan_qr now session token sid w)).
Proof.
  cbn [run_scans nth_error scan_step]. unfold scan_qr.
  destruct session as [l |]; [| reflexivity].
  destruct (negb (role l =? "student")%string); [reflexivity |].
  destruct token as [tok |]; [| reflexivity].
  destruct sid as [sid |]; [| reflexivity].
  destruct (falsy_str (Some tok) || falsy_str (Some sid)); [reflexivity |].
  destruct (validate_token now tok sid w) as [valid w1].
  destruct valid; cbn [negb]; [| reflexivity].
  cbn [set_nth nth_error scan_step]. unfold mark_attendance.
  destruct (active_session w1) as [s |] eqn:E; [| reflexivity].
  destruct (class_id s =? 0); [reflexivity |].
  destruct (sql_attendance_exists _ _ _ _); [reflexivity |].
  cbn [set_nth nth_error scan_step].
  destruct (sql_insert_attendance _ _); rewrite ?E; reflexivity.
Qed.

(** C8, on the code: two scans of one student with the same valid token.
    When both pre-checks run before either insert, the first request
    records the mark and the second is answered with the database error
    (500), not with "already marked"; the table holds one row.  Served
    one after the other, the second is answered "already marked". *)
Theorem racing_scan_gets_database_error :
  let w := world_with abc_session 3000 in
  let student := Some (mkLogin "2024001" "student") in
  let request := AtValidate student (Some "0cf5f9f747568d2c") (Some "abc") in
  let interleaved :=
    [(0%nat, 3000); (1%nat, 3000); (0%nat, 3000); (1%nat, 3000);
     (0%nat, 3000); (1%nat, 3000)] in
  let one_by_one :=
    [(0%nat, 3000); (0%nat, 3000); (0%nat, 3000);
     (1%nat, 3000); (1%nat, 3000); (1%nat, 3000)] in
  fst (run_scans interleaved [request; request] w)
    = [Finished marked; Finished database_error]
  /\ attendance (db (snd (run_scans interleaved [request; request] w)))
     = [mkAttRow "2024001" 1 0 "present" 3000]
  /\ fst (run_scans one_by_one [request; request] w)
     = [Finished marked; Finished already_marked]
  /\ attendance (db (snd (run_scans one_by_one [request; request] w)))
     = [mkAttRow "2024001" 1 0 "present" 3000].
Proof.
  cbv zeta. split; [| split; [| split]]; vm_compute; reflexivity.
Qed.

(** ** The duration of a new session *)

Section Duration.

Variable int_of_str : string -> option Z.

(** A missing [duration], and one on which [int] raises [ValueError] or
    [TypeError], is read as 60. *)
Lemma read_duration_fallback (d : option Json) :
  (d = None
   \/ exists x, d = Some x
                /\ (py_int int_of_str x = Raise ValueError
                    \/ py_int int_of_str x = Raise TypeError)) ->
  read_duration int_of_str d = Ok 60.
Proof.
  unfold read_duration.
  intros [-> | [x [-> [E | E]]]]; [reflexivity | |]; rewrite E; reflexivity.
Qed.

Lemma read_duration_examples :
  read_duration int_of_str None = Ok 60
  /\ read_duration int_of_str (Some JNull) = Ok 60
  /\ read_duration int_of_str (Some (JArr [])) = Ok 60
  /\ read_duration int_of_str (Some (JFloat FNan)) = Ok 60
  /\ read_duration int_of_str (Some (JInt 5)) = Ok 5
  /\ read_duration int_of_str (Some (JBool true)) = Ok 1
  /\ read_duration int_of_str (Some (JFloat (FFinite 5 (-1)))) = Ok 2
  /\ read_duration int_of_str (Some (JFloat (FInf false)))
     = Raise OverflowError.
Proof. repeat split. Qed.

(** C10, on the code: a [duration] that is an infinite float cannot be
    converted, [int] raises [OverflowError], which the handler does not
    catch: the request of the class's own teacher fails and no session is
    started, where the fallback to 60 would have started one. *)
Theorem infinite_duration_is_not_defaulted (now : Z) (uuid4 : string) :
  let teacher := Some (mkLogin "teacher001" "teacher") in
  let body d := mkGenerateQrBody d (Some "CS101") in
  generate_qr int_of_str now uuid4 teacher
              (body (Some (JFloat (FInf false)))) fresh_world
    = (Raise OverflowError, fresh_world)
  /\ py_int int_of_str (JFloat (FInf false)) = Raise OverflowError
  /\ generate_qr int_of_str 1000 "s-1" teacher (body (Some JNull)) fresh_world
     = generate_qr int_of_str 1000 "s-1" teacher (body (Some (JInt 60)))
                   fresh_world
  /\ fst (generate_qr int_of_str 1000 "s-1" teacher (body None) fresh_world)
     = Ok (mkResponse 200 (BStarted "s-1" "Computer Science 101" 4600)).
Proof.
  cbv zeta. repeat split.
Qed.

End Duration.

(** * Further properties of the code *)

(** ** Starting a session *)

Lemma deactivate_teacher_ids (t : string) (rows : list QrRow) :
  map row_session_id (sql_deactivate_teacher t rows)
  = map row_session_id rows.
Proof.
  unfold sql_deactivate_teacher. rewrite map_map. apply map_ext.
  intros r. destruct ((row_teacher_id r =? t)%string && row_is_active r);
    reflexivity.
Qed.

Lemma deactivate_session_ids (sid : string) (rows : list QrRow) :
  map row_session_id (sql_deactivate_session sid rows)
  = map row_session_id rows.
Proof.
  unfold sql_deactivate_session. rewrite map_map. apply map_ext.
  intros r. destruct (row_session_id r =? sid)%string; reflexivity.
Qed.

Lemma insert_session_raises (r : QrRow) (rows : list QrRow) (e : Exn) :
  sql_insert_session r rows = Raise e ->
  e = IntegrityError /\ In (row_session_id r) (map row_session_id rows).
Proof.
  unfold sql_insert_session.
  destruct (existsb _ rows) eqn:E; [| discriminate].
  intros H. injection H as <-. split; [reflexivity |].
  apply existsb_exists in E. destruct E as [r' [Hin Heq]].
  apply String.eqb_eq in Heq. rewrite <- Heq. apply in_map. exact Hin.
Qed.

(** X1. A [start_session] that raises leaves the store and the cache as
    they were: the deactivation of the teacher's rows is not committed.
    It raises [OverflowError] on the date arithmetic or
    [IntegrityError] when the drawn identifier is already that of a
    row. *)
Theorem start_session_raise_is_atomic
    (now : Z) (uuid4 : string) (c : Z) (t : string) (d : Z)
    (w w' : World) (e : Exn) :
  start_session now uuid4 c t d w = (Raise e, w') ->
  w' = w
  /\ (e = OverflowError
      \/ (e = IntegrityError
          /\ In uuid4 (map row_session_id (qr_sessions (db w))))).
Proof.
  unfold start_session.
  destruct (timedelta_minutes d) as [delta | e1] eqn:Td.
  - destruct (datetime_add now delta) as [e_at | e1] eqn:Da.
    + destruct (sql_insert_session _ _) as [rows2 | e1] eqn:I;
        [discriminate |].
      intros H. injection H as <- <-. split; [reflexivity |]. right.
      apply insert_session_raises in I. destruct I as [-> Hin].
      rewrite deactivate_teacher_ids in Hin. split; [reflexivity | exact Hin].
    + intros H. injection H as <- <-. split; [reflexivity |]. left.
      unfold datetime_add in Da.
      destruct (_ && _) in Da; [discriminate | congruence].
  - intros H. injection H as <- <-. split; [reflexivity |]. left.
    unfold timedelta_minutes in Td.
    destruct (_ && _) in Td; [discriminate | congruence].
Qed.

Lemma start_session_raise_is_atomic_witness :
  let w := world_with abc_session 3000 in
  start_session 3100 "abc" 1 "teacher001" 60 w = (Raise IntegrityError, w)
  /\ map row_is_active (qr_sessions (db w)) = [true]
  /\ In "abc" (map row_session_id (qr_sessions (db w))).
Proof.
  intros w.
  assert (H : start_session 3100 "abc" 1 "teacher001" 60 w
              = (Raise IntegrityError, w)) by reflexivity.
  split; [exact H |]. split; [reflexivity |].
  destruct (start_session_raise_is_atomic _ _ _ _ _ _ _ _ H) as [_ [E | [_ I]]];
    [discriminate E | exact I].
Defined.

(** X2. A successful [start_session] leaves the active rows of every
    other teacher as they were in the store, and replaces the cached
    session, whoever owned it, by the new one. *)
Theorem start_session_spares_other_teachers
    (now : Z) (uuid4 : string) (c : Z) (t : string) (d : Z)
    (w w' : World) (s : Session) :
  start_session now uuid4 c t d w = (Ok s, w') ->
  (forall t', t' <> t ->
     active_for t' (qr_sessions (db w')) = active_for t' (qr_sessions (db w)))
  /\ active_session w' = Some s
  /\ teacher_id s = t /\ class_id s = c /\ session_id s = uuid4
  /\ attendance (db w') = attendance (db w)
  /\ classes (db w') = classes (db w).
Proof.
  intros H. pose proof H as H'. apply start_session_ok in H. cbv zeta in H.
  destruct H as [Hs [Hrows [_ [Hc _]]]].
  split; [| split; [exact Hc |]].
  - intros t' N. rewrite Hrows, active_for_app.
    rewrite (active_for_deactivate_teacher_other t t' _ N).
    rewrite active_for_cons. unfold is_active_for.
    cbn [row_is_active row_teacher_id andb].
    destruct (String.eqb_spec t t') as [E | _];
      [symmetry in E; contradiction |].
    apply app_nil_r.
  - rewrite Hs. cbn [teacher_id class_id session_id].
    repeat (split; [reflexivity |]).
    unfold start_session in H'.
    destruct (timedelta_minutes d); [| discriminate].
    destruct (datetime_add now _); [| discriminate].
    destruct (sql_insert_session _ _); [| discriminate].
    injection H' as _ <-. split; reflexivity.
Qed.

Lemma start_session_spares_other_teachers_witness :
  let w := world_with abc_session 3000 in
  let r := start_session 3100 "s-2" 2 "teacher002" 60 w in
  r = (Ok (mkSession "s-2" 2 "teacher002" 6700), snd r)
  /\ "teacher001" <> "teacher002"
  /\ map row_session_id (active_for "teacher001" (qr_sessions (db (snd r))))
     = ["abc"]
  /\ option_map teacher_id (active_session (snd r)) = Some "teacher002".
Proof.
  intros w r.
  assert (H : r = (Ok (mkSession "s-2" 2 "teacher002" 6700), snd r))
    by reflexivity.
  assert (N : "teacher001" <> "teacher002") by discriminate.
  split; [exact H |]. split; [exact N |].
  destruct (start_session_spares_other_teachers _ _ _ _ _ _ _ _ H)
    as [Hother [Hc _]].
  split; [rewrite (Hother "teacher001" N); reflexivity |].
  rewrite Hc. reflexivity.
Defined.

(** ** The newest active row *)

Lemma newest_spec (rows : list QrRow) (best : option QrRow) (r : QrRow) :
  newest best rows = Some r ->
  (best = Some r \/ In r rows)
  /\ (forall b, best = Some b -> row_created_at b <= row_created_at r)
  /\ (forall x, In x rows -> row_created_at x <= row_created_at r).
Proof.
  revert best. induction rows as [| x rows IH]; intros best H.
  - cbn in H. subst best. split; [left; reflexivity |].
    split; [intros b E; injection E as <-; lia | intros x []].
  - cbn [newest] in H. destruct best as [b |].
    + destruct (Z.ltb_spec (row_created_at b) (row_created_at x)) as [L | L];
        apply IH in H; destruct H as [Hin [Hb Hall]].
      * specialize (Hb x eq_refl). split; [| split].
        -- right. destruct Hin as [E | Hin];
             [injection E as <-; left; reflexivity | right; exact Hin].
        -- intros b' E. injection E as <-. lia.
        -- intros y [<- | Hy]; [exact Hb | apply Hall, Hy].
      * specialize (Hb b eq_refl). split; [| split].
        -- destruct Hin as [E | Hin]; [left; exact E | right; right; exact Hin].
        -- intros b' E. injection E as <-. exact Hb.
        -- intros y [<- | Hy]; [lia | apply Hall, Hy].
    + apply IH in H. destruct H as [Hin [Hb Hall]].
      specialize (Hb x eq_refl). split; [| split].
      * right. destruct Hin as [E | Hin];
          [injection E as <-; left; reflexivity | right; exact Hin].
      * intros b' E. discriminate E.
      * intros y [<- | Hy]; [exact Hb | apply Hall, Hy].
Qed.

Lemma newest_some (rows : list QrRow) (b : QrRow) :
  newest (Some b) rows <> None.
Proof.
  revert b. induction rows as [| x rows IH]; intros b; [discriminate |].
  cbn [newest]. destruct (row_created_at b <? row_created_at x); apply IH.
Qed.

Lemma most_recent_active_spec (rows : list QrRow) (r : QrRow) :
  sql_most_recent_active rows = Some r ->
  In r rows /\ row_is_active r = true
  /\ (forall x, In x rows -> row_is_active x = true ->
                row_created_at x <= row_created_at r).
Proof.
  unfold sql_most_recent_active. intros H. apply newest_spec in H.
  destruct H as [[E | Hin] [_ Hall]]; [discriminate |].
  apply filter_In in Hin. destruct Hin as [Hin Hact].
  split; [exact Hin |]. split; [exact Hact |].
  intros x Hx Ax. apply Hall. apply filter_In. auto.
Qed.

Lemma most_recent_active_none (rows : list QrRow) :
  sql_most_recent_active rows = None
  <-> forall x, In x rows -> row_is_active x = false.
Proof.
  unfold sql_most_recent_active. split.
  - intros H x Hx. destruct (row_is_active x) eqn:A; [| reflexivity].
    assert (Hf : In x (filter row_is_active rows))
      by (apply filter_In; auto).
    destruct (filter row_is_active rows) as [| y l]; [destruct Hf |].
    cbn [newest] in H. exfalso. exact (newest_some _ _ H).
  - intros H.
    assert (E : filter row_is_active rows = []).
    { induction rows as [| y l IH]; [reflexivity |].
      cbn [filter]. rewrite (H y (or_introl eq_refl)).
      apply IH. intros x Hx. apply H. right. exact Hx. }
    rewrite E. reflexivity.
Qed.

Lemma reload_adopts_aux (now : Z) (w : World) :
  active_session w = None ->
  (forall s, active_session (_ensure_session_is_active now w) = Some s ->
     exists row,
       In row (qr_sessions (db w)) /\ row_is_active row = true
       /\ s = mkSession (row_session_id row) (row_class_id row)
                        (row_teacher_id row) (row_expires_at row)
       /\ now < expires_at s
       /\ (forall x, In x (qr_sessions (db w)) -> row_is_active x = true ->
                     row_created_at x <= row_created_at row)
       /\ db (_ensure_session_is_active now w) = db w)
  /\ ((forall x, In x (qr_sessions (db w)) -> row_is_active x = false) ->
      _ensure_session_is_active now w = w).
Proof.
  intros Hc. rewrite ensure_reloads by (left; exact Hc).
  unfold _load_active_session_from_db. split.
  - intros s.
    destruct (sql_most_recent_active (qr_sessions (db w))) as [row |] eqn:M;
      [| rewrite Hc; discriminate].
    destruct (Z.ltb_spec now (row_expires_at row)) as [L | L];
      cbn [active_session]; [| rewrite Hc; discriminate].
    intros E. injection E as <-.
    apply most_recent_active_spec in M. destruct M as [Hin [Hact Hall]].
    exists row. cbn [expires_at db]. auto 10.
  - intros Hall. apply most_recent_active_none in Hall. rewrite Hall.
    reflexivity.
Qed.

(** X3. What a reload adopts: when the refresh of a manager without a
    session yields one, it is the session of a row of the store that is
    active and not expired, and no active row was created later; when
    the store has no active row the manager stays without a session and
    nothing is written. *)
Theorem reload_adopts_newest_active (now : Z) (w : World) :
  active_session w = None ->
  (forall s, active_session (_ensure_session_is_active now w) = Some s ->
     exists row,
       In row (qr_sessions (db w)) /\ row_is_active row = true
       /\ s = mkSession (row_session_id row) (row_class_id row)
                        (row_teacher_id row) (row_expires_at row)
       /\ now < expires_at s
       /\ (forall x, In x (qr_sessions (db w)) -> row_is_active x = true ->
                     row_created_at x <= row_created_at row)
       /\ db (_ensure_session_is_active now w) = db w)
  /\ ((forall x, In x (qr_sessions (db w)) -> row_is_active x = false) ->
      _ensure_session_is_active now w = w).
Proof. apply reload_adopts_aux. Qed.

Lemma reload_adopts_newest_active_witness :
  let w := init_manager 9000 (db (world_with abc_session 3000)) in
  active_session w = None
  /\ (forall x, In x (qr_sessions (db w)) -> row_is_active x = false)
  /\ _ensure_session_is_active 9100 w = w.
Proof.
  intros w.
  assert (Hc : active_session w = None) by reflexivity.
  assert (Hall : forall x, In x (qr_sessions (db w)) -> row_is_active x = false).
  { intros x [<- | []]. reflexivity. }
  split; [exact Hc |]. split; [exact Hall |].
  exact (proj2 (reload_adopts_newest_active 9100 w Hc) Hall).
Defined.

Lemma newest_last (l : list QrRow) (best : option QrRow) (r : QrRow) :
  (forall b, best = Some b -> row_created_at b < row_created_at r) ->
  (forall x, In x l -> row_created_at x < row_created_at r) ->
  newest best (l ++ [r]) = Some r.
Proof.
  revert best. induction l as [| x l IH]; intros best Hb Hl.
  - cbn [app newest]. destruct best as [b |]; [| reflexivity].
    specialize (Hb b eq_refl).
    destruct (Z.ltb_spec (row_created_at b) (row_created_at r)); [| lia].
    reflexivity.
  - cbn [app newest].
    assert (Hx : row_created_at x < row_created_at r)
      by (apply Hl; left; reflexivity).
    assert (Hl' : forall y, In y l -> row_created_at y < row_created_at r)
      by (intros y Hy; apply Hl; right; exact Hy).
    destruct best as [b |].
    + destruct (row_created_at b <? row_created_at x); apply IH; auto.
      intros b' E. injection E as <-. exact Hx.
    + apply IH; auto. intros b' E. injection E as <-. exact Hx.
Qed.

Lemma deactivate_teacher_active_in (t : string) (rows : list QrRow)
    (x : QrRow) :
  In x (sql_deactivate_teacher t rows) -> row_is_active x = true ->
  In x rows /\ row_teacher_id x <> t.
Proof.
  unfold sql_deactivate_teacher. intros Hin Ax.
  apply in_map_iff in Hin. destruct Hin as [r0 [Hr Hin]].
  destruct (String.eqb_spec (row_teacher_id r0) t) as [E | N];
    destruct (row_is_active r0) eqn:A; cbn [andb] in Hr; subst x;
    cbn [deactivate row_is_active] in Ax; try discriminate;
    try congruence; split; assumption.
Qed.

(** X4. The store carries a session across a restart: after a
    successful [start_session] at [now], when every row still active for
    another teacher was created before [now], a manager constructed on
    the same database before the expiry holds that very session, and
    issues for it the token the running manager issues. *)
Theorem restart_recovers_session
    (now : Z) (uuid4 : string) (c : Z) (t : string) (d : Z)
    (w w' : World) (s : Session) (later : Z) :
  start_session now uuid4 c t d w = (Ok s, w') ->
  (forall r, In r (qr_sessions (db w)) -> row_is_active r = true ->
             row_teacher_id r <> t -> row_created_at r < now) ->
  later < expires_at s ->
  init_manager later (db w') = w'
  /\ fst (get_current_token later (init_manager later (db w')))
     = fst (get_current_token later w').
Proof.
  intros H Hold Hlt. apply start_session_ok in H. cbv zeta in H.
  destruct H as [Hs [Hrows [_ [Hc _]]]].
  assert (E : init_manager later (db w') = w').
  { unfold init_manager, _load_active_session_from_db. cbn [db active_session].
    unfold sql_most_recent_active. rewrite Hrows, filter_app.
    cbn [filter row_is_active].
    rewrite newest_last.
    - cbn [row_expires_at row_session_id row_class_id row_teacher_id].
      destruct (Z.ltb_spec later (expires_at s)); [| lia].
      rewrite <- Hs. destruct w' as [d' c']. cbn in Hc. subst c'. reflexivity.
    - intros b Eb. discriminate Eb.
    - intros x Hx. cbn [row_created_at].
      apply filter_In in Hx. destruct Hx as [Hx Ax].
      destruct (deactivate_teacher_active_in t _ x Hx Ax) as [Hx0 Nx].
      apply Hold; assumption. }
  split; [exact E | rewrite E; reflexivity].
Qed.

Lemma restart_recovers_session_witness :
  let w := world_with abc_session 3000 in
  let r := start_session 3100 "s-2" 2 "teacher002" 60 w in
  r = (Ok (mkSession "s-2" 2 "teacher002" 6700), snd r)
  /\ (forall x, In x (qr_sessions (db w)) -> row_is_active x = true ->
                row_teacher_id x <> "teacher002" -> row_created_at x < 3100)
  /\ 5000 < 6700
  /\ init_manager 5000 (db (snd r)) = snd r.
Proof.
  intros w r.
  assert (H : r = (Ok (mkSession "s-2" 2 "teacher002" 6700), snd r))
    by reflexivity.
  assert (Hold : forall x, In x (qr_sessions (db w)) -> row_is_active x = true ->
                 row_teacher_id x <> "teacher002" -> row_created_at x < 3100).
  { intros x [<- | []] _ _. reflexivity. }
  assert (L : 5000 < 6700) by reflexivity.
  split; [exact H |]. split; [exact Hold |]. split; [exact L |].
  exact (proj1 (restart_recovers_session _ _ _ _ _ _ _ _ 5000 H Hold L)).
Defined.

(** X5. [get_current_token] returns [None] exactly when the cache is
    empty and the store's newest active row, if there is one, has
    expired; a cached session, expired or not, always yields a token. *)
Theorem no_token_iff (now : Z) (w : World) :
  fst (get_current_token now w) = None
  <-> active_session w = None
      /\ (forall row, sql_most_recent_active (qr_sessions (db w)) = Some row ->
                      row_expires_at row <= now).
Proof.
  rewrite get_current_token_spec. cbn [fst]. split.
  - intros H.
    destruct (active_session w) as [s |] eqn:Hc.
    + exfalso.
      assert (N : active_session w <> None) by (rewrite Hc; discriminate).
      apply (refresh_never_empties_cache now w N).
      destruct (active_session (_ensure_session_is_active now w));
        [discriminate | reflexivity].
    + split; [reflexivity |]. intros row M.
      rewrite ensure_reloads in H by (left; exact Hc).
      unfold _load_active_session_from_db in H. rewrite M in H.
      destruct (Z.ltb_spec now (row_expires_at row)) as [L | L];
        [discriminate | exact L].
  - intros [Hc Hrow].
    rewrite ensure_reloads by (left; exact Hc).
    unfold _load_active_session_from_db.
    destruct (sql_most_recent_active (qr_sessions (db w))) as [row |];
      [| rewrite Hc; reflexivity].
    specialize (Hrow row eq_refl).
    destruct (Z.ltb_spec now (row_expires_at row)); [lia |].
    cbn [active_session]. rewrite Hc. reflexivity.
Qed.

(** ** Stopping revokes *)

(** X6. After [stop_session] no token is accepted for the session that
    was cached, at any time and whatever the token: every row with its
    id is inactive, so no reload can bring it back. *)
Theorem stop_revokes_tokens
    (w : World) (s : Session) (now : Z) (token : string) :
  active_session w = Some s ->
  fst (validate_token now token (session_id s) (snd (stop_session w))) = false
  /\ (forall td, fst (get_current_token now (snd (stop_session w))) = Some td ->
                 td_session_id td <> session_id s).
Proof.
  intros Hc.
  set (w1 := snd (stop_session w)).
  assert (Hc1 : active_session w1 = None) by reflexivity.
  assert (Hrows : qr_sessions (db w1)
                  = sql_deactivate_session (session_id s) (qr_sessions (db w))).
  { unfold w1, stop_session. rewrite Hc. reflexivity. }
  assert (Hother : forall s', active_session (_ensure_session_is_active now w1)
                              = Some s' -> session_id s' <> session_id s).
  { intros s' E.
    destruct (proj1 (reload_adopts_aux now w1 Hc1) s' E)
      as [row [Hin [Hact [Hs' _]]]].
    rewrite Hrows in Hin. intros Eid.
    assert (row_is_active row = false).
    { eapply deactivate_session_inactive; [exact Hin |].
      rewrite Hs' in Eid. exact Eid. }
    congruence. }
  split.
  - rewrite validate_token_spec. cbn [fst].
    destruct (active_session (_ensure_session_is_active now w1)) as [s' |] eqn:E;
      [| reflexivity].
    specialize (Hother s' eq_refl). apply String.eqb_neq in Hother.
    rewrite Hother. reflexivity.
  - intros td. rewrite get_current_token_spec. cbn [fst].
    destruct (active_session (_ensure_session_is_active now w1)) as [s' |] eqn:E;
      [| discriminate].
    intros Etd. injection Etd as <-. cbn [td_session_id]. apply Hother.
    reflexivity.
Qed.

Lemma stop_revokes_tokens_witness :
  let w := world_with abc_session 3000 in
  active_session w = Some abc_session
  /\ fst (validate_token 3000 "0cf5f9f747568d2c" "abc" w) = true
  /\ fst (validate_token 3000 "0cf5f9f747568d2c" "abc" (snd (stop_session w)))
     = false.
Proof.
  intros w.
  split; [reflexivity |]. split; [vm_compute; reflexivity |].
  exact (proj1 (stop_revokes_tokens w abc_session 3000 "0cf5f9f747568d2c"
                  eq_refl)).
Defined.

(** ** The life of a token, in seconds *)

(** X7. While the session stays cached and unexpired, a token issued at
    [t] is accepted at every later time up to the end of the window that
    follows the window of issue: at least 30 seconds and less than 60.
    Neither call writes to the store. *)
Theorem token_lives_thirty_to_sixty_seconds
    (t t' : Z) (w : World) (s : Session) :
  active_session w = Some s ->
  t <= t' -> t' < expires_at s ->
  t' < 30 * (t / 30) + 60 ->
  exists td,
    get_current_token t w = (Some td, w)
    /\ td_session_id td = session_id s
    /\ validate_token t' (td_token td) (session_id s) w = (true, w)
    /\ t + 30 < 30 * (t / 30) + 60.
Proof.
  intros Hc Htt Hexp Hwin.
  assert (Hk : t' / 30 = t / 30 \/ t' / 30 = t / 30 + 1).
  { pose proof (Z.div_le_mono t t' 30 ltac:(lia) Htt).
    assert (t' / 30 < t / 30 + 2); [| lia].
    apply Z.div_lt_upper_bound; lia. }
  exists (mkTokenData (deriveToken (session_id s) (currentWindow t))
                      (session_id s)).
  rewrite get_current_token_spec, validate_token_spec.
  rewrite (ensure_keeps t w s Hc) by lia.
  rewrite (ensure_keeps t' w s Hc Hexp). rewrite Hc.
  split; [reflexivity |]. split; [reflexivity |]. split.
  - rewrite String.eqb_refl. cbn [andb td_token]. f_equal.
    apply check_offsets_spec. unfold currentWindow.
    destruct Hk as [-> | ->]; [left; reflexivity | right].
    f_equal. lia.
  - pose proof (Z.mod_pos_bound t 30 ltac:(lia)).
    pose proof (Z.div_mod t 30 ltac:(lia)). lia.
Qed.

Lemma token_lives_thirty_to_sixty_seconds_witness :
  let w := world_with abc_session 3000 in
  active_session w = Some abc_session
  /\ 3029 <= 3059 /\ 3059 < expires_at abc_session
  /\ 3059 < 30 * (3029 / 30) + 60
  /\ validate_token 3059 "0cf5f9f747568d2c" "abc" w = (true, w).
Proof.
  intros w.
  split; [reflexivity |]. split; [discriminate |]. split; [reflexivity |].
  split; [reflexivity |].
  destruct (token_lives_thirty_to_sixty_seconds 3029 3059 w abc_session
              eq_refl ltac:(discriminate) eq_refl eq_refl)
    as [td [Hissue [_ [Hval _]]]].
  assert (E : td_token td = "0cf5f9f747568d2c").
  { assert (X : get_current_token 3029 w
                = (Some (mkTokenData "0cf5f9f747568d2c" "abc"), w))
      by (vm_compute; reflexivity).
    rewrite X in Hissue. injection Hissue as <-. reflexivity. }
  rewrite E in Hval. exact Hval.
Defined.

(** ** Session identifiers stay unique *)

Lemma run_ops_app (ops1 ops2 : list Op) (w : World) :
  run_ops (ops1 ++ ops2) w = run_ops ops2 (run_ops ops1 w).
Proof. apply fold_left_app. Qed.

Lemma ensure_ids (now : Z) (w : World) :
  map row_session_id (qr_sessions (db (_ensure_session_is_active now w)))
  = map row_session_id (qr_sessions (db w)).
Proof.
  unfold _ensure_session_is_active, _load_active_session_from_db.
  destruct (active_session w) as [s |];
    [destruct (expires_at s <=? now); [| reflexivity] |];
    (destruct (sql_most_recent_active _) as [row |]; [| reflexivity];
     destruct (now <? row_expires_at row); cbn; [reflexivity |];
     apply deactivate_session_ids).
Qed.

Lemma NoDup_snoc (l : list string) (u : string) :
  NoDup l -> ~ In u l -> NoDup (l ++ [u]).
Proof.
  induction l as [| x l IH]; intros ND N; cbn [app].
  - constructor; [intros [] | constructor].
  - inversion ND as [| ? ? Hx ND']; subst. constructor.
    + intros Hin. apply in_app_iff in Hin. destruct Hin as [Hin | [E | []]].
      * contradiction.
      * subst. apply N. left. reflexivity.
    + apply IH; [exact ND' |]. intros Hin. apply N. right. exact Hin.
Qed.

Lemma apply_op_ids (w : World) (o : Op) :
  NoDup (map row_session_id (qr_sessions (db w))) ->
  NoDup (map row_session_id (qr_sessions (db (apply_op w o)))).
Proof.
  intros ND. destruct o as [now u c t d | | now | now token sid];
    cbn [apply_op].
  - destruct (start_session now u c t d w) as [[s | e] w'] eqn:E.
    + apply start_session_ok in E. cbv zeta in E.
      destruct E as [_ [Hrows [_ [_ Hfresh]]]]. cbn [snd].
      rewrite Hrows, map_app, deactivate_teacher_ids. cbn [map row_session_id].
      apply NoDup_snoc; [exact ND |].
      intros Hin. apply in_map_iff in Hin. destruct Hin as [r [Hid Hin]].
      exact (Hfresh r Hin Hid).
    + apply start_session_failed in E. subst w'. exact ND.
  - unfold stop_session. cbn.
    destruct (active_session w) as [s |]; cbn; [| exact ND].
    rewrite deactivate_session_ids. exact ND.
  - rewrite get_current_token_spec. cbn [snd]. rewrite ensure_ids. exact ND.
  - rewrite validate_token_spec. cbn [snd]. rewrite ensure_ids. exact ND.
Qed.

(** X8. Whatever the sequence of manager calls, no two rows of
    [qr_sessions] share a session id, and no row is ever removed: the
    ids present before are still there, in the same order. *)
Theorem session_ids_stay_unique (ops : list Op) (w : World) :
  NoDup (map row_session_id (qr_sessions (db w))) ->
  NoDup (map row_session_id (qr_sessions (db (run_ops ops w))))
  /\ exists added,
       map row_session_id (qr_sessions (db (run_ops ops w)))
       = (map row_session_id (qr_sessions (db w)) ++ added)%list.
Proof.
  revert w. induction ops as [| o ops IH]; intros w ND.
  - split; [exact ND |]. exists []. symmetry. apply app_nil_r.
  - cbn [run_ops fold_left]. fold (run_ops ops (apply_op w o)).
    destruct (IH (apply_op w o) (apply_op_ids w o ND)) as [ND' [added E]].
    split; [exact ND' |]. rewrite E. clear IH ND' E.
    destruct o as [now u c t d | | now | now token sid]; cbn [apply_op].
    + destruct (start_session now u c t d w) as [[s | e] w'] eqn:E.
      * apply start_session_ok in E. cbv zeta in E.
        destruct E as [_ [Hrows _]]. cbn [snd].
        rewrite Hrows, map_app, deactivate_teacher_ids. cbn [map row_session_id].
        exists (u :: added). rewrite <- app_assoc. reflexivity.
      * apply start_session_failed in E. subst w'. exists added. reflexivity.
    + unfold stop_session. cbn.
      destruct (active_session w) as [s |]; cbn;
        rewrite ?deactivate_session_ids; exists added; reflexivity.
    + rewrite get_current_token_spec. cbn [snd]. rewrite ensure_ids.
      exists added. reflexivity.
    + rewrite validate_token_spec. cbn [snd]. rewrite ensure_ids.
      exists added. reflexivity.
Qed.

Lemma session_ids_stay_unique_witness :
  let ops := [OpStart 1000 "s-1" 1 "teacher001" 60;
              OpStart 2000 "s-1" 1 "teacher001" 60;
              OpStop;
              OpStart 3000 "s-2" 1 "teacher001" 60] in
  NoDup (map row_session_id (qr_sessions (db fresh_world)))
  /\ map row_session_id (qr_sessions (db (run_ops ops fresh_world)))
     = ["s-1"; "s-2"]
  /\ NoDup (map row_session_id (qr_sessions (db (run_ops ops fresh_world)))).
Proof.
  intros ops.
  assert (ND : NoDup (map row_session_id (qr_sessions (db fresh_world))))
    by constructor.
  split; [exact ND |]. split; [reflexivity |].
  exact (proj1 (session_ids_stay_unique ops fresh_world ND)).
Defined.

(** ** The shape of a token *)

Lemma compress_length (h block : list Z) :
  List.length h = 8%nat -> List.length (Sha256.compress h block) = 8%nat.
Proof.
  intros H. unfold Sha256.compress.
  rewrite length_map, length_combine, H. reflexivity.
Qed.

Lemma state_length (bs : list (list Z)) (h : list Z) :
  List.length h = 8%nat ->
  List.length (fold_left Sha256.compress bs h) = 8%nat.
Proof.
  revert h. induction bs as [| b bs IH]; intros h H; [exact H |].
  cbn [fold_left]. apply IH. apply compress_length. exact H.
Qed.

Lemma be_bytes_range (n : nat) (x : Z) :
  List.length (Sha256.be_bytes n x) = n
  /\ Forall (fun b => 0 <= b < 256) (Sha256.be_bytes n x).
Proof.
  induction n as [| n [IHl IHf]]; cbn [Sha256.be_bytes].
  - split; [reflexivity | constructor].
  - split; [cbn [List.length]; rewrite IHl; reflexivity |].
    constructor; [apply Z.mod_pos_bound; lia | exact IHf].
Qed.

Lemma digest_range (msg : list Z) :
  List.length (Sha256.digest msg) = 32%nat
  /\ Forall (fun b => 0 <= b < 256) (Sha256.digest msg).
Proof.
  unfold Sha256.digest.
  pose proof (state_length (Sha256.blocks (Sha256.pad msg)) Sha256.H0
                eq_refl) as L.
  destruct (fold_left Sha256.compress _ Sha256.H0)
    as [| a [| b [| c [| d [| e [| f [| g [| h [| ? ?]]]]]]]]];
    try discriminate L.
  cbn [flat_map]. rewrite !app_nil_r.
  split.
  - rewrite !length_app.
    rewrite !(proj1 (be_bytes_range 4 _)). reflexivity.
  - repeat (apply Forall_app; split); apply be_bytes_range.
Qed.

Lemma hex_digit_is_hex (d : Z) :
  0 <= d < 16 -> is_hex (Sha256.hex_digit d) = true.
Proof.
  intros H.
  assert (d = 0 \/ d = 1 \/ d = 2 \/ d = 3 \/ d = 4 \/ d = 5 \/ d = 6
          \/ d = 7 \/ d = 8 \/ d = 9 \/ d = 10 \/ d = 11 \/ d = 12
          \/ d = 13 \/ d = 14 \/ d = 15) as E by lia.
  repeat (destruct E as [-> | E]; [reflexivity |]). subst d. reflexivity.
Qed.

Lemma hex_of_bytes_shape (bs : list Z) :
  Forall (fun b => 0 <= b < 256) bs ->
  String.length (Sha256.hex_of_bytes bs) = (2 * List.length bs)%nat
  /\ all_hex (Sha256.hex_of_bytes bs) = true.
Proof.
  induction 1 as [| b bs Hb _ [IHl IHh]]; [split; reflexivity |].
  cbn [Sha256.hex_of_bytes String.length all_hex List.length].
  split; [rewrite IHl; lia |].
  rewrite !hex_digit_is_hex, IHh; [reflexivity | |].
  - apply Z.mod_pos_bound. lia.
  - split; [apply Z.div_pos; lia | apply Z.div_lt_upper_bound; lia].
Qed.

Lemma prefix_shape (n : nat) (s : string) :
  (n <= String.length s)%nat -> all_hex s = true ->
  String.length (prefix n s) = n /\ all_hex (prefix n s) = true.
Proof.
  revert s. induction n as [| n IH]; intros s L H.
  - destruct s; split; reflexivity.
  - destruct s as [| c s]; [cbn in L; lia |].
    cbn [all_hex] in H. apply andb_true_iff in H. destruct H as [Hc Hs].
    cbn [String.length] in L.
    destruct (IH s ltac:(lia) Hs) as [IHl IHh].
    cbn [prefix String.length all_hex]. rewrite IHl, Hc, IHh.
    split; reflexivity.
Qed.

(** X9. Every token [get_current_token] issues, for any session id and
    at any time, is made of exactly 16 lower-case hexadecimal digits. *)
Theorem issued_token_is_sixteen_hex_digits
    (now : Z) (w w1 : World) (td : TokenData) :
  get_current_token now w = (Some td, w1) ->
  String.length (td_token td) = 16%nat /\ all_hex (td_token td) = true.
Proof.
  intros H. apply issued_token in H. destruct H as [-> _].
  unfold deriveToken, Sha256.hexdigest.
  set (msg := encode _).
  destruct (digest_range msg) as [L F].
  destruct (hex_of_bytes_shape _ F) as [HL HH].
  apply prefix_shape; [rewrite HL, L; cbn; lia | exact HH].
Qed.

Lemma issued_token_is_sixteen_hex_digits_witness :
  let w := world_with abc_session 3000 in
  get_current_token 3000 w
    = (Some (mkTokenData "0cf5f9f747568d2c" "abc"), w)
  /\ String.length "0cf5f9f747568d2c" = 16%nat
  /\ all_hex "0cf5f9f747568d2c" = true.
Proof.
  intros w.
  assert (H : get_current_token 3000 w
              = (Some (mkTokenData "0cf5f9f747568d2c" "abc"), w))
    by (vm_compute; reflexivity).
  split; [exact H |].
  exact (issued_token_is_sixteen_hex_digits 3000 w w _ H).
Defined.

Lemma deriveToken_shape (sid : string) (k : Z) :
  String.length (deriveToken sid k) = 16%nat
  /\ all_hex (deriveToken sid k) = true.
Proof.
  unfold deriveToken, Sha256.hexdigest.
  set (msg := encode _).
  destruct (digest_range msg) as [L F].
  destruct (hex_of_bytes_shape _ F) as [HL HH].
  apply prefix_shape; [rewrite HL, L; cbn; lia | exact HH].
Qed.

Lemma accepted_token_shape_aux
    (now : Z) (token sid : string) (w : World) :
  fst (validate_token now token sid w) = true ->
  String.length token = 16%nat /\ all_hex token = true.
Proof.
  rewrite validate_token_spec. cbn [fst].
  destruct (active_session (_ensure_session_is_active now w)) as [s |];
    [| discriminate].
  intros H. apply andb_true_iff in H. destruct H as [_ H].
  apply check_offsets_spec in H.
  destruct H as [-> | ->]; apply deriveToken_shape.
Qed.

(** X10. [validate_token] accepts only strings of 16 lower-case
    hexadecimal digits: a token of another length, or with another
    character, is refused for every session and at every time. *)
Theorem accepted_token_is_sixteen_hex_digits
    (now : Z) (token sid : string) (w : World) :
  fst (validate_token now token sid w) = true ->
  String.length token = 16%nat /\ all_hex token = true.
Proof. apply accepted_token_shape_aux. Qed.

Lemma accepted_token_is_sixteen_hex_digits_witness :
  fst (validate_token 3000 "0cf5f9f747568d2c" "abc"
                      (world_with abc_session 3000)) = true
  /\ String.length "0cf5f9f747568d2c" = 16%nat.
Proof.
  assert (H : fst (validate_token 3000 "0cf5f9f747568d2c" "abc"
                                  (world_with abc_session 3000)) = true)
    by (vm_compute; reflexivity).
  split; [exact H |].
  exact (proj1 (accepted_token_is_sixteen_hex_digits _ _ _ _ H)).
Defined.

(** ** Scans *)

(** X11. However the steps of any number of [scan_qr] requests are
    interleaved, the [attendance] table never holds two rows for one
    student, class and day. *)
Theorem attendance_marks_stay_unique
    (schedule : list (nat * Z)) (pool : list ScanThread) (w : World) :
  unique_marks (attendance (db w)) ->
  unique_marks (attendance (db (snd (run_scans schedule pool w)))).
Proof. apply run_scans_unique. Qed.

Lemma attendance_marks_stay_unique_witness :
  let w := world_with abc_session 3000 in
  let request :=
    AtValidate (Some (mkLogin "2024001" "student"))
               (Some "0cf5f9f747568d2c") (Some "abc") in
  let schedule :=
    [(0%nat, 3000); (1%nat, 3000); (2%nat, 3001); (0%nat, 3001);
     (1%nat, 3001); (2%nat, 3002); (0%nat, 3002); (1%nat, 3002);
     (2%nat, 3002)] in
  unique_marks (attendance (db w))
  /\ unique_marks
       (attendance (db (snd (run_scans schedule [request; request; request] w))))
  /\ List.length
       (attendance (db (snd (run_scans schedule [request; request; request] w))))
     = 1%nat.
Proof.
  intros w request schedule.
  assert (U : unique_marks (attendance (db w)))
    by (intros st c d; cbn; lia).
  split; [exact U |]. split.
  - exact (attendance_marks_stay_unique schedule
             [request; request; request] w U).
  - vm_compute. reflexivity.
Defined.

Lemma insert_after_precheck (student : string) (c today now : Z)
    (rows : list AttRow) :
  sql_attendance_exists student c today rows = false ->
  sql_insert_attendance (mkAttRow student c today "present" now) rows
  = Ok (rows ++ [mkAttRow student c today "present" now])%list.
Proof.
  unfold sql_attendance_exists, sql_insert_attendance.
  cbn [att_student_id att_class_id att_date]. intros ->. reflexivity.
Qed.

Lemma scan_qr_outcome_aux
    (now : Z) (session : FlaskSession) (token sid : option string)
    (w : World) :
  let r := fst (scan_qr now session token sid w) in
  let w1 := snd (scan_qr now session token sid w) in
  r <> database_error
  /\ classes (db w1) = classes (db w)
  /\ ((r <> marked /\ attendance (db w1) = attendance (db w))
      \/ (r = marked
          /\ exists l s,
               session = Some l /\ role l = "student"
               /\ active_session w1 = Some s
               /\ sql_attendance_exists (user_id l) (class_id s) (now / 86400)
                                        (attendance (db w)) = false
               /\ attendance (db w1)
                  = (attendance (db w)
                     ++ [mkAttRow (user_id l) (class_id s) (now / 86400)
                                  "present" now])%list)).
Proof.
  cbv zeta. unfold scan_qr.
  destruct session as [l |];
    [| split; [discriminate | split; [reflexivity | left; split;
                                      [discriminate | reflexivity]]]].
  destruct (String.eqb_spec (role l) "student") as [Hrole | Hrole];
    cbn [negb];
    [| split; [discriminate | split; [reflexivity | left; split;
                                      [discriminate | reflexivity]]]].
  destruct token as [tok |];
    [| split; [discriminate | split; [reflexivity | left; split;
                                      [discriminate | reflexivity]]]].
  destruct sid as [sid |];
    [| split; [discriminate | split; [reflexivity | left; split;
                                      [discriminate | reflexivity]]]].
  destruct (falsy_str (Some tok) || falsy_str (Some sid));
    [split; [discriminate | split; [reflexivity | left; split;
                                    [discriminate | reflexivity]]] |].
  rewrite validate_token_spec.
  set (w0 := _ensure_session_is_active now w).
  assert (Ha : attendance (db w0) = attendance (db w))
    by apply ensure_keeps_attendance.
  assert (Hcl : classes (db w0) = classes (db w)).
  { unfold w0, _ensure_session_is_active, _load_active_session_from_db.
    destruct (active_session w) as [s |];
      [destruct (expires_at s <=? now); [| reflexivity] |];
      (destruct (sql_most_recent_active _) as [row |]; [| reflexivity];
       destruct (now <? row_expires_at row); reflexivity). }
  destruct (match active_session w0 with
            | Some s => _ | None => false end); cbn [negb fst snd];
    [| split; [discriminate | split; [exact Hcl | left; split;
                                      [discriminate | exact Ha]]]].
  unfold mark_attendance.
  destruct (active_session w0) as [s |] eqn:Hs;
    [| split; [discriminate | split; [exact Hcl | left; split;
                                      [discriminate | exact Ha]]]].
  destruct (class_id s =? 0);
    [split; [discriminate | split; [exact Hcl | left; split;
                                    [discriminate | exact Ha]]] |].
  destruct (sql_attendance_exists _ _ _ _) eqn:Ex;
    [split; [discriminate | split; [exact Hcl | left; split;
                                    [discriminate | exact Ha]]] |].
  rewrite (insert_after_precheck _ _ _ now _ Ex). cbn [fst snd].
  split; [discriminate |]. split; [exact Hcl |]. right.
  split; [reflexivity |]. exists l, s. cbn [active_session db attendance].
  rewrite <- Ha. auto.
Qed.

(** X12. A [scan_qr] request that runs alone is never answered with the
    database error.  It changes the [attendance] table only when it
    answers "marked": then the caller is a student, no mark existed for
    the caller, the cached class and the day, and exactly that mark, with
    status "present", is appended.  The classes are never changed. *)
Theorem scan_qr_alone_outcome
    (now : Z) (session : FlaskSession) (token sid : option string)
    (w : World) :
  let r := fst (scan_qr now session token sid w) in
  let w1 := snd (scan_qr now session token sid w) in
  r <> database_error
  /\ classes (db w1) = classes (db w)
  /\ ((r <> marked /\ attendance (db w1) = attendance (db w))
      \/ (r = marked
          /\ exists l s,
               session = Some l /\ role l = "student"
               /\ active_session w1 = Some s
               /\ sql_attendance_exists (user_id l) (class_id s) (now / 86400)
                                        (attendance (db w)) = false
               /\ attendance (db w1)
                  = (attendance (db w)
                     ++ [mkAttRow (user_id l) (class_id s) (now / 86400)
                                  "present" now])%list)).
Proof. apply scan_qr_outcome_aux. Qed.

Lemma attendance_exists_app (student : string) (c d : Z)
    (rows : list AttRow) (a : AttRow) :
  same_mark student c d a = true ->
  sql_attendance_exists student c d (rows ++ [a]) = true.
Proof.
  intros H. unfold sql_attendance_exists. rewrite existsb_app.
  cbn [existsb]. rewrite H. rewrite orb_true_r. reflexivity.
Qed.

(** X13. Once a scan has been answered "marked", a further scan of the
    same student on the same UTC day, with a token that validates for the
    same session before it expires, is answered "already marked" and
    changes nothing. *)
Theorem second_scan_same_day_is_already_marked
    (now now' : Z) (l : Login) (tok sid tok' : string) (w w1 : World)
    (s : Session) :
  scan_qr now (Some l) (Some tok) (Some sid) w = (marked, w1) ->
  active_session w1 = Some s ->
  now' / 86400 = now / 86400 ->
  now' < expires_at s ->
  fst (validate_token now' tok' sid w1) = true ->
  scan_qr now' (Some l) (Some tok') (Some sid) w1 = (already_marked, w1).
Proof.
  intros H1 Hs Hday Hexp Hval.
  pose proof (scan_qr_outcome_aux now (Some l) (Some tok) (Some sid) w) as O.
  cbv zeta in O. rewrite H1 in O. cbn [fst snd] in O.
  destruct O as [_ [_ [[N _] | [_ [l0 [s0 [El [Hrole [Hs0 [_ Hatt]]]]]]]]]];
    [contradiction |].
  injection El as <-. rewrite Hs in Hs0. injection Hs0 as <-.
  (* the first scan passed the checks on the session id and on the class *)
  assert (Hsid : falsy_str (Some sid) = false /\ (class_id s =? 0) = false).
  { unfold scan_qr in H1. rewrite Hrole in H1. cbn [String.eqb negb] in H1.
    change ("student" =? "student")%string with true in H1. cbn [negb] in H1.
    destruct (falsy_str (Some tok)); [discriminate H1 |].
    destruct (falsy_str (Some sid)); [discriminate H1 |]. cbn [orb] in H1.
    split; [reflexivity |].
    destruct (validate_token now tok sid w) as [valid w0].
    destruct valid; [| discriminate H1]. cbn [negb] in H1.
    unfold mark_attendance in H1.
    destruct (active_session w0) as [s0 |] eqn:E0; [| discriminate H1].
    destruct (class_id s0 =? 0) eqn:C0; [discriminate H1 |].
    destruct (sql_attendance_exists _ _ _ _); [discriminate H1 |].
    destruct (sql_insert_attendance _ _); [| discriminate H1].
    injection H1 as <-. cbn [active_session] in Hs.
    injection Hs as <-. exact C0. }
  destruct Hsid as [Fsid Hclass].
  assert (Ftok : falsy_str (Some tok') = false).
  { destruct (accepted_token_shape_aux now' tok' sid w1 Hval) as [L _].
    destruct tok'; [discriminate L | reflexivity]. }
  unfold scan_qr. rewrite Hrole.
  change ("student" =? "student")%string with true. cbn [negb].
  rewrite Ftok, Fsid. cbn [orb].
  rewrite validate_token_spec in Hval |- *. cbn [fst] in Hval.
  rewrite (ensure_keeps now' w1 s Hs Hexp) in Hval |- *.
  rewrite Hval. cbn [negb]. unfold mark_attendance. rewrite Hs, Hclass.
  rewrite Hatt, Hday, attendance_exists_app; [reflexivity |].
  unfold same_mark. cbn [att_student_id att_class_id att_date].
  rewrite String.eqb_refl, !Z.eqb_refl. reflexivity.
Qed.

Lemma second_scan_same_day_is_already_marked_witness :
  let w := world_with abc_session 3000 in
  let student := mkLogin "2024001" "student" in
  let first :=
    scan_qr 3000 (Some student) (Some "0cf5f9f747568d2c") (Some "abc") w in
  first = (marked, snd first)
  /\ active_session (snd first) = Some abc_session
  /\ 3040 / 86400 = 3000 / 86400
  /\ 3040 < expires_at abc_session
  /\ fst (validate_token 3040 "94cbdb1ac0e93287" "abc" (snd first)) = true
  /\ scan_qr 3040 (Some student) (Some "94cbdb1ac0e93287") (Some "abc")
             (snd first)
     = (already_marked, snd first).
Proof.
  intros w student first.
  assert (H1 : first = (marked, snd first)) by (vm_compute; reflexivity).
  assert (Hs : active_session (snd first) = Some abc_session)
    by (vm_compute; reflexivity).
  assert (Hv : fst (validate_token 3040 "94cbdb1ac0e93287" "abc" (snd first))
               = true) by (vm_compute; reflexivity).
  split; [exact H1 |]. split; [exact Hs |]. split; [reflexivity |].
  split; [reflexivity |]. split; [exact Hv |].
  exact (second_scan_same_day_is_already_marked 3000 3040 student
           "0cf5f9f747568d2c" "abc" "94cbdb1ac0e93287" w (snd first)
           abc_session H1 Hs eq_refl eq_refl Hv).
Defined.

(** ** Starting a session through the route *)

Section GenerateQrFacts.

Variable int_of_str : string -> option Z.

Lemma find_class_some (code teacher : string) (rows : list ClassRow)
    (c : ClassRow) :
  sql_find_class code teacher rows = Some c ->
  In c rows /\ cls_code c = code /\ cls_teacher_id c = teacher.
Proof.
  unfold sql_find_class. intros H. apply find_some in H.
  destruct H as [Hin H]. apply andb_true_iff in H. destruct H as [Hc Ht].
  apply String.eqb_eq in Hc. apply String.eqb_eq in Ht. auto.
Qed.

(** Either the request started a session for a class of the caller, or
    it left the world as it was. *)
Lemma generate_qr_cases (now : Z) (uuid4 : string) (session : FlaskSession)
    (data : GenerateQrBody) (w : World) :
  let out := generate_qr int_of_str now uuid4 session data w in
  (snd out = w
   /\ forall r, fst out = Ok r -> status r <> 200)
  \/ (exists l cls s,
        session = Some l /\ role l = "teacher"
        /\ In cls (classes (db w))
        /\ cls_teacher_id cls = user_id l
        /\ class_code data = Some (cls_code cls)
        /\ fst out = Ok (mkResponse 200
                           (BStarted (session_id s) (cls_name cls)
                                     (expires_at s)))
        /\ start_session now uuid4 (cls_id cls) (user_id l)
             (match read_duration int_of_str (duration data) with
              | Ok n => n | Raise _ => 60 end) w
           = (Ok s, snd out)).
Proof.
  cbv zeta. unfold generate_qr.
  destruct session as [l |];
    [| left; split; [reflexivity | intros r E; injection E as <-; discriminate]].
  destruct (String.eqb_spec (role l) "teacher") as [Hrole | Hrole]; cbn [negb];
    [| left; split; [reflexivity | intros r E; injection E as <-; discriminate]].
  destruct (read_duration int_of_str (duration data)) as [n | e];
    [| left; split; [reflexivity | intros r E; discriminate E]].
  destruct (class_code data) as [code |] eqn:Hcode; cbn [falsy_str];
    [| left; split; [reflexivity | intros r E; injection E as <-; discriminate]].
  destruct (code =? "")%string;
    [left; split; [reflexivity | intros r E; injection E as <-; discriminate] |].
  destruct (sql_find_class code (user_id l) (classes (db w))) as [cls |] eqn:F;
    [| left; split; [reflexivity | intros r E; injection E as <-; discriminate]].
  apply find_class_some in F. destruct F as [Hin [Hc Ht]].
  destruct (start_session now uuid4 (cls_id cls) (user_id l) n w)
    as [[s | e] w1] eqn:S.
  - right. exists l, cls, s. cbn [fst snd]. rewrite Hc. auto 10.
  - left. apply start_session_failed in S. subst w1.
    split; [reflexivity | intros r E; discriminate E].
Qed.

(** X14. [generate_qr] starts a session only for a teacher and only for
    a class that this teacher owns: when it answers 200, the caller's
    role is "teacher", the class code of the request is that of a row of
    [classes] whose teacher is the caller, and the session now cached is
    for that class and that teacher. *)
Theorem generate_qr_only_for_own_class
    (now : Z) (uuid4 : string) (session : FlaskSession)
    (data : GenerateQrBody) (w w1 : World) (r : Response) :
  generate_qr int_of_str now uuid4 session data w = (Ok r, w1) ->
  status r = 200 ->
  exists l cls s,
    session = Some l /\ role l = "teacher"
    /\ In cls (classes (db w))
    /\ cls_teacher_id cls = user_id l
    /\ class_code data = Some (cls_code cls)
    /\ active_session w1 = Some s
    /\ teacher_id s = user_id l /\ class_id s = cls_id cls
    /\ r = mkResponse 200 (BStarted (session_id s) (cls_name cls)
                                    (expires_at s)).
Proof.
  intros H Hst.
  pose proof (generate_qr_cases now uuid4 session data w) as C.
  cbv zeta in C. rewrite H in C. cbn [fst snd] in C.
  destruct C as [[_ N] | [l [cls [s [Hl [Hrole [Hin [Ht [Hc [Hr Hs]]]]]]]]]].
  - exfalso. exact (N r eq_refl Hst).
  - exists l, cls, s. injection Hr as ->.
    pose proof (start_session_ok _ _ _ _ _ _ _ _ Hs) as K. cbv zeta in K.
    destruct K as [Es [_ [_ [Hcache _]]]].
    repeat (split; [assumption |]).
    rewrite Es. cbn [teacher_id class_id]. auto.
Qed.

(** X15. A [generate_qr] request that does not answer 200, whether it
    is refused (403, 400, 404) or fails with an exception, leaves the
    store and the manager's cache untouched. *)
Theorem generate_qr_refusal_keeps_world
    (now : Z) (uuid4 : string) (session : FlaskSession)
    (data : GenerateQrBody) (w : World) :
  (forall r, fst (generate_qr int_of_str now uuid4 session data w) = Ok r ->
             status r <> 200) ->
  snd (generate_qr int_of_str now uuid4 session data w) = w.
Proof.
  intros N.
  pose proof (generate_qr_cases now uuid4 session data w) as C.
  cbv zeta in C.
  destruct C as [[E _] | [l [cls [s [_ [_ [_ [_ [_ [Hr _]]]]]]]]]];
    [exact E |].
  exfalso. exact (N _ Hr eq_refl).
Qed.

(** X16. A request whose [duration] is absent, or is a value on which
    [int] raises [ValueError] or [TypeError] (null, a list, an object, a
    NaN, a string that is not an integer literal), is served exactly as
    the same request with [duration] 60. *)
Theorem unreadable_duration_is_sixty
    (now : Z) (uuid4 : string) (session : FlaskSession)
    (d : option Json) (code : option string) (w : World) :
  (d = None
   \/ exists x, d = Some x
                /\ (py_int int_of_str x = Raise ValueError
                    \/ py_int int_of_str x = Raise TypeError)) ->
  generate_qr int_of_str now uuid4 session (mkGenerateQrBody d code) w
  = generate_qr int_of_str now uuid4 session
                (mkGenerateQrBody (Some (JInt 60)) code) w.
Proof.
  intros H. unfold generate_qr. cbn [duration].
  rewrite (read_duration_fallback int_of_str d H). reflexivity.
Qed.

End GenerateQrFacts.

Lemma generate_qr_only_for_own_class_witness :
  let out := generate_qr no_literal 1000 "s-1" ada
               (mkGenerateQrBody (Some (JInt 5)) (Some "CS101")) fresh_world in
  out = (Ok (mkResponse 200 (BStarted "s-1" "Computer Science 101" 1300)),
         snd out)
  /\ status (mkResponse 200 (BStarted "s-1" "Computer Science 101" 1300)) = 200
  /\ option_map class_id (active_session (snd out)) = Some 1.
Proof.
  intros out.
  assert (H : out = (Ok (mkResponse 200
                           (BStarted "s-1" "Computer Science 101" 1300)),
                     snd out)) by reflexivity.
  split; [exact H |]. split; [reflexivity |].
  destruct (generate_qr_only_for_own_class no_literal _ _ _ _ _ _ _ H eq_refl)
    as [l [cls [s [_ [_ [_ [_ [_ [Hc _]]]]]]]]].
  reflexivity.
Defined.

Lemma generate_qr_refusal_keeps_world_witness :
  let w := world_with abc_session 3000 in
  let request :=
    generate_qr no_literal 3100 "s-2"
      (Some (mkLogin "teacher002" "teacher"))
      (mkGenerateQrBody None (Some "CS101")) w in
  (forall r, fst request = Ok r -> status r <> 200)
  /\ fst request
     = Ok (mkResponse 404 (BError
         "Class not found or you are not authorized to start a session for this class."))
  /\ snd request = w.
Proof.
  intros w request.
  assert (N : forall r, fst request = Ok r -> status r <> 200).
  { intros r E. cbn in E. injection E as <-. discriminate. }
  split; [exact N |]. split; [reflexivity |].
  exact (generate_qr_refusal_keeps_world no_literal _ _ _ _ w N).
Defined.

Lemma unreadable_duration_is_sixty_witness :
  (Some (JStr "an hour") = None
   \/ exists x, Some (JStr "an hour") = Some x
                /\ (py_int no_literal x = Raise ValueError
                    \/ py_int no_literal x = Raise TypeError))
  /\ fst (generate_qr no_literal 1000 "s-1" ada
            (mkGenerateQrBody (Some (JStr "an hour")) (Some "CS101"))
            fresh_world)
     = Ok (mkResponse 200 (BStarted "s-1" "Computer Science 101" 4600)).
Proof.
  assert (H : Some (JStr "an hour") = None
              \/ exists x, Some (JStr "an hour") = Some x
                           /\ (py_int no_literal x = Raise ValueError
                               \/ py_int no_literal x = Raise TypeError)).
  { right. exists (JStr "an hour"). split; [reflexivity |]. left. reflexivity. }
  split; [exact H |].
  rewrite (unreadable_duration_is_sixty no_literal 1000 "s-1" ada _
             (Some "CS101") fresh_world H).
  reflexivity.
Defined.

(** ** Seeding *)

Lemma insert_user_conflict (key : Z) (uid name email hash r : string)
    (rows : list UserRow) :
  user_conflict uid email
    (sql_insert_or_ignore_user key uid name email hash r rows) = true.
Proof.
  unfold sql_insert_or_ignore_user.
  destruct (user_conflict uid email rows) eqn:E; [exact E |].
  unfold user_conflict. rewrite existsb_app. cbn [existsb usr_user_id].
  rewrite String.eqb_refl. cbn [orb]. apply orb_true_r.
Qed.

Lemma insert_user_keeps_conflict (key' : Z)
    (uid email uid' name' email' hash' r' : string) (rows : list UserRow) :
  user_conflict uid email rows = true ->
  user_conflict uid email
    (sql_insert_or_ignore_user key' uid' name' email' hash' r' rows) = true.
Proof.
  intros H. unfold sql_insert_or_ignore_user.
  destruct (user_conflict uid' email' rows); [exact H |].
  unfold user_conflict in *. rewrite existsb_app, H. reflexivity.
Qed.

Lemma insert_user_ignored (key : Z) (uid name email hash r : string)
    (rows : list UserRow) :
  user_conflict uid email rows = true ->
  sql_insert_or_ignore_user key uid name email hash r rows = rows.
Proof. unfold sql_insert_or_ignore_user. intros ->. reflexivity. Qed.

Lemma insert_class_twice (key key' : Z)
    (name teacher code name' teacher' : string) (rows : list ClassRow) :
  sql_insert_or_ignore_class key' name' teacher' code
    (sql_insert_or_ignore_class key name teacher code rows)
  = sql_insert_or_ignore_class key name teacher code rows.
Proof.
  unfold sql_insert_or_ignore_class.
  destruct (class_conflict code rows) eqn:E; [rewrite E; reflexivity |].
  set (row := mkClassRow key name teacher code).
  assert (C : class_conflict code (rows ++ [row]) = true).
  { unfold class_conflict. rewrite existsb_app. cbn [existsb cls_code row].
    rewrite String.eqb_refl. cbn [orb]. apply orb_true_r. }
  rewrite C. reflexivity.
Qed.

Lemma insert_user_extends (key : Z) (uid name email hash r : string)
    (rows : list UserRow) :
  exists added,
    sql_insert_or_ignore_user key uid name email hash r rows
    = (rows ++ added)%list.
Proof.
  unfold sql_insert_or_ignore_user.
  destruct (user_conflict uid email rows);
    [exists []; symmetry; apply app_nil_r | eexists; reflexivity].
Qed.

(** X17. Seeding is idempotent and never touches a row that is there:
    running [_create_default_data] again, whatever the password hashes
    and the keys of the second run, changes nothing, and the first run
    only appends to the two tables. *)
Theorem seeding_is_idempotent
    (h1 h2 h1' h2' : string) (k1 k2 k3 k1' k2' k3' : Z)
    (tables : list UserRow * list ClassRow) :
  _create_default_data h1' h2' k1' k2' k3'
    (_create_default_data h1 h2 k1 k2 k3 tables)
  = _create_default_data h1 h2 k1 k2 k3 tables
  /\ exists users' classes',
       _create_default_data h1 h2 k1 k2 k3 tables
       = ((fst tables ++ users')%list, (snd tables ++ classes')%list).
Proof.
  split.
  - unfold _create_default_data. cbn [fst snd]. f_equal.
    + rewrite (insert_user_ignored k1' "teacher001").
      * apply insert_user_ignored. apply insert_user_conflict.
      * apply insert_user_keeps_conflict. apply insert_user_conflict.
    + apply insert_class_twice.
  - unfold _create_default_data.
    destruct (insert_user_extends k1 "teacher001" "Dr. Ada Lovelace"
                "teacher@campus.edu" h1 "teacher" (fst tables)) as [a1 E1].
    rewrite E1.
    destruct (insert_user_extends k2 "2024001" "Alan Turing"
                "student@campus.edu" h2 "student" (fst tables ++ a1)%list)
      as [a2 E2].
    rewrite E2. rewrite <- app_assoc.
    exists (a1 ++ a2)%list.
    unfold sql_insert_or_ignore_class.
    destruct (class_conflict "CS101" (snd tables));
      [exists []; rewrite app_nil_r; reflexivity | eexists; reflexivity].
Qed.

(** ** The attendance history *)

Section History.

Variable tie : HistoryRecord -> HistoryRecord -> bool.

Lemma insert_desc_in (r x : HistoryRecord) (l : list HistoryRecord) :
  In x (insert_desc tie r l) <-> x = r \/ In x l.
Proof.
  induction l as [| y l IH]; cbn [insert_desc].
  - cbn. intuition.
  - destruct ((hr_date y <? hr_date r)
              || ((hr_date y =? hr_date r) && tie r y)); cbn [In];
      [intuition |].
    rewrite IH. intuition.
Qed.

Lemma insert_desc_descending (r : HistoryRecord) (l : list HistoryRecord) :
  descending l -> descending (insert_desc tie r l).
Proof.
  induction l as [| y l IH]; intros D; cbn [insert_desc].
  - cbn. split; [intros ? [] | exact I].
  - cbn [descending] in D. destruct D as [Hy D].
    destruct ((hr_date y <? hr_date r)
              || ((hr_date y =? hr_date r) && tie r y)) eqn:C;
      cbn [descending].
    + assert (L : hr_date y <= hr_date r).
      { apply orb_true_iff in C. destruct C as [C | C].
        - apply Z.ltb_lt in C. lia.
        - apply andb_true_iff in C. destruct C as [C _].
          apply Z.eqb_eq in C. lia. }
      split; [| split; assumption].
      intros z [<- | Hz]; [exact L |]. specialize (Hy z Hz). lia.
    + assert (L : hr_date r <= hr_date y).
      { apply orb_false_iff in C. destruct C as [C _].
        apply Z.ltb_ge in C. exact C. }
      split; [| apply IH; exact D].
      intros z Hz. apply insert_desc_in in Hz.
      destruct Hz as [-> | Hz]; [exact L | apply Hy, Hz].
Qed.

Lemma sort_desc_in (x : HistoryRecord) (l : list HistoryRecord) :
  In x (sort_desc tie l) <-> In x l.
Proof.
  induction l as [| y l IH]; [reflexivity |].
  cbn [sort_desc fold_right]. fold (sort_desc tie l).
  rewrite insert_desc_in, IH. cbn. intuition.
Qed.

Lemma sort_desc_descending (l : list HistoryRecord) :
  descending (sort_desc tie l).
Proof.
  induction l as [| y l IH]; [exact I |].
  cbn [sort_desc fold_right]. apply insert_desc_descending. exact IH.
Qed.

Lemma sort_desc_length (l : list HistoryRecord) :
  List.length (sort_desc tie l) = List.length l.
Proof.
  assert (Hins : forall r m, List.length (insert_desc tie r m)
                             = S (List.length m)).
  { intros r m. induction m as [| y m IH]; [reflexivity |].
    cbn [insert_desc].
    destruct ((hr_date y <? hr_date r)
              || ((hr_date y =? hr_date r) && tie r y));
      cbn [List.length]; [reflexivity | rewrite IH; reflexivity]. }
  induction l as [| y l IH]; [reflexivity |].
  cbn [sort_desc fold_right]. fold (sort_desc tie l).
  rewrite Hins, IH. reflexivity.
Qed.

Lemma firstn_in (n : nat) (l : list HistoryRecord) (x : HistoryRecord) :
  In x (firstn n l) -> In x l.
Proof.
  revert l. induction n as [| n IH]; intros l H; [destruct H |].
  destruct l as [| y l]; [destruct H |].
  cbn [firstn] in H. destruct H as [<- | H]; [left; reflexivity |].
  right. apply IH. exact H.
Qed.

Lemma firstn_descending (n : nat) (l : list HistoryRecord) :
  descending l -> descending (firstn n l).
Proof.
  revert l. induction n as [| n IH]; intros l D; [exact I |].
  destruct l as [| x l]; [exact I |].
  cbn [firstn descending]. cbn [descending] in D. destruct D as [Hx D].
  split; [| apply IH; exact D].
  intros y Hy. apply Hx. eapply firstn_in. exact Hy.
Qed.

Lemma history_join_in (student : string) (marks : list AttRow)
    (cls : list ClassRow) (r : HistoryRecord) :
  In r (sql_history_join student marks cls)
  <-> exists a c,
        In a marks /\ In c cls
        /\ att_student_id a = student /\ cls_id c = att_class_id a
        /\ r = mkHistoryRecord (att_date a) (att_status a) (cls_name c).
Proof.
  unfold sql_history_join. rewrite in_flat_map. split.
  - intros [a [Ha Hr]].
    destruct (String.eqb_spec (att_student_id a) student) as [E | N];
      [| destruct Hr].
    apply in_map_iff in Hr. destruct Hr as [c [<- Hc]].
    apply filter_In in Hc. destruct Hc as [Hc Hid].
    apply Z.eqb_eq in Hid. exists a, c. auto.
  - intros [a [c [Ha [Hc [Hs [Hid ->]]]]]]. exists a. split; [exact Ha |].
    apply String.eqb_eq in Hs. rewrite Hs.
    apply in_map_iff. exists c. split; [reflexivity |].
    apply filter_In. split; [exact Hc | apply Z.eqb_eq; exact Hid].
Qed.

(** X18. [get_attendance_history] answers a student with at most 30
    records, in order of decreasing date; each is a mark of that student
    joined with its class, and when the student has at most 30 such
    records none is left out.  Any other caller is answered 403.  This
    holds however the engine orders the records of one date. *)
Theorem attendance_history_shape (session : FlaskSession) (w : World) :
  (forall l, session = Some l -> role l = "student" ->
     exists records,
       get_attendance_history tie session w = inr records
       /\ (List.length records <= 30)%nat
       /\ descending records
       /\ (forall r, In r records ->
             exists a c,
               In a (attendance (db w)) /\ In c (classes (db w))
               /\ att_student_id a = user_id l /\ cls_id c = att_class_id a
               /\ r = mkHistoryRecord (att_date a) (att_status a) (cls_name c))
       /\ ((List.length (sql_history_join (user_id l) (attendance (db w))
                                          (classes (db w))) <= 30)%nat ->
           forall a c,
             In a (attendance (db w)) -> In c (classes (db w)) ->
             att_student_id a = user_id l -> cls_id c = att_class_id a ->
             In (mkHistoryRecord (att_date a) (att_status a) (cls_name c))
                records))
  /\ (has_role "student" session = false ->
      get_attendance_history tie session w
      = inl (mkResponse 403 (BError "Only students can perform this action."))).
Proof.
  split.
  - intros l -> Hrole. unfold get_attendance_history. rewrite Hrole.
    change ("student" =? "student")%string with true. cbn [negb].
    set (joined := sql_history_join _ _ _).
    exists (firstn 30 (sort_desc tie joined)).
    split; [reflexivity |]. split; [apply firstn_le_length |].
    split; [apply firstn_descending, sort_desc_descending |]. split.
    + intros r Hr. apply firstn_in in Hr.
      apply (proj1 (sort_desc_in _ _)) in Hr.
      apply (proj1 (history_join_in _ _ _ _)) in Hr. exact Hr.
    + intros Hlen a c Ha Hc Hs Hid.
      rewrite firstn_all2 by (rewrite sort_desc_length; exact Hlen).
      apply (proj2 (sort_desc_in _ _)).
      apply (proj2 (history_join_in _ _ _ _)). exists a, c. auto.
  - unfold get_attendance_history, has_role.
    destruct session as [l |]; [| reflexivity].
    intros ->. reflexivity.
Qed.

End History.

Lemma attendance_history_shape_witness :
  let student := mkLogin "2024001" "student" in
  let w :=
    snd (scan_qr 3000 (Some student) (Some "0cf5f9f747568d2c") (Some "abc")
                 (world_with abc_session 3000)) in
  Some student = Some student
  /\ role student = "student"
  /\ get_attendance_history by_class_name (Some student) w
     = inr [mkHistoryRecord 0 "present" "Computer Science 101"]
  /\ (exists records,
        get_attendance_history by_class_name (Some student) w = inr records
        /\ (List.length records <= 30)%nat)
  /\ has_role "student" ada = false
  /\ get_attendance_history by_class_name ada w
     = inl (mkResponse 403 (BError "Only students can perform this action.")).
Proof.
  intros student w.
  split; [reflexivity |]. split; [reflexivity |].
  split; [vm_compute; reflexivity |].
  destruct (attendance_history_shape by_class_name (Some student) w)
    as [Hs Hno].
  split.
  - destruct (Hs student eq_refl eq_refl) as [records [E [L _]]].
    exists records. split; [exact E | exact L].
  - split; [reflexivity |].
    exact (proj2 (attendance_history_shape by_class_name ada w) eq_refl).
Defined.

Example seeding_from_empty :
  snd (_create_default_data "h1" "h2" 1 2 1 ([], [])) = classes (db fresh_world)
  /\ map usr_user_id (fst (_create_default_data "h1" "h2" 1 2 1 ([], [])))
     = ["teacher001"; "2024001"].
Proof. repeat split. Qed.

(** ** What the manager leaves alone *)

Lemma apply_op_keeps_tables (w : World) (o : Op) :
  attendance (db (apply_op w o)) = attendance (db w)
  /\ classes (db (apply_op w o)) = classes (db w).
Proof.
  assert (Hload : forall now v,
             attendance (db (_load_active_session_from_db now v))
             = attendance (db v)
             /\ classes (db (_load_active_session_from_db now v))
                = classes (db v)).
  { intros now v. unfold _load_active_session_from_db.
    destruct (sql_most_recent_active _) as [row |]; [| split; reflexivity].
    destruct (now <? row_expires_at row); split; reflexivity. }
  assert (Hens : forall now v,
             attendance (db (_ensure_session_is_active now v))
             = attendance (db v)
             /\ classes (db (_ensure_session_is_active now v))
                = classes (db v)).
  { intros now v. unfold _ensure_session_is_active.
    destruct (active_session v) as [s |];
      [destruct (expires_at s <=? now) |];
      try apply Hload; split; reflexivity. }
  destruct o as [now u c t d | | now | now token sid]; cbn [apply_op].
  - unfold start_session.
    destruct (timedelta_minutes d); [| split; reflexivity].
    destruct (datetime_add now _); [| split; reflexivity].
    destruct (sql_insert_session _ _); split; reflexivity.
  - unfold stop_session. cbn.
    destruct (active_session w); split; reflexivity.
  - rewrite get_current_token_spec. apply Hens.
  - rewrite validate_token_spec. apply Hens.
Qed.

(** X19. No sequence of manager calls (start, stop, token, validate)
    writes to [attendance] or to [classes]: both tables are as before. *)
Theorem manager_keeps_attendance_and_classes (ops : list Op) (w : World) :
  attendance (db (run_ops ops w)) = attendance (db w)
  /\ classes (db (run_ops ops w)) = classes (db w).
Proof.
  revert w. induction ops as [| o ops IH]; intros w; [split; reflexivity |].
  cbn [run_ops fold_left]. fold (run_ops ops (apply_op w o)).
  destruct (IH (apply_op w o)) as [Ha Hc].
  destruct (apply_op_keeps_tables w o) as [Ha' Hc'].
  split; congruence.
Qed.

(** ** From the start to the first token *)

Lemma start_session_expiry (now : Z) (uuid4 : string) (c : Z) (t : string)
    (d : Z) (w w' : World) (s : Session) :
  start_session now uuid4 c t d w = (Ok s, w') ->
  expires_at s = now + 60 * d
  /\ datetime_min <= expires_at s <= datetime_max.
Proof.
  unfold start_session, timedelta_minutes, datetime_add.
  destruct (_ && _); [| discriminate].
  destruct ((datetime_min <=? now + d * 60) && (now + d * 60 <=? datetime_max))
    eqn:R; [| discriminate].
  destruct (sql_insert_session _ _); [| discriminate].
  intros H. injection H as <- _. cbn [expires_at].
  apply andb_true_iff in R. destruct R as [R1 R2].
  apply Z.leb_le in R1. apply Z.leb_le in R2. lia.
Qed.

(** X20. The session a successful [start_session] returns expires
    [duration_minutes] minutes after the start, and until then the token
    route answers 200 with that session's id, its expiry and the token of
    the current window, without writing to the store. *)
Theorem started_session_serves_tokens
    (now : Z) (uuid4 : string) (c : Z) (t : string) (d : Z)
    (w w' : World) (s : Session) (later : Z) :
  start_session now uuid4 c t d w = (Ok s, w') ->
  later < now + 60 * d ->
  expires_at s = now + 60 * d
  /\ get_qr_token later w'
     = (mkResponse 200
          (BToken (deriveToken uuid4 (later / 30)) uuid4 (Some (now + 60 * d))),
        w').
Proof.
  intros H L.
  destruct (start_session_expiry _ _ _ _ _ _ _ _ H) as [E _].
  apply start_session_ok in H. cbv zeta in H.
  destruct H as [Hs [_ [_ [Hc _]]]].
  split; [exact E |].
  unfold get_qr_token. rewrite get_current_token_spec.
  rewrite (ensure_keeps later w' s Hc) by lia.
  rewrite Hc. cbn [td_token td_session_id]. rewrite E.
  rewrite Hs. cbn [session_id]. reflexivity.
Qed.

Lemma started_session_serves_tokens_witness :
  let r := start_session 1000 "s-1" 1 "teacher001" 60 fresh_world in
  r = (Ok (mkSession "s-1" 1 "teacher001" 4600), snd r)
  /\ 4599 < 1000 + 60 * 60
  /\ fst (get_qr_token 4599 (snd r))
     = mkResponse 200
         (BToken (deriveToken "s-1" (4599 / 30)) "s-1" (Some 4600)).
Proof.
  intros r.
  assert (H : r = (Ok (mkSession "s-1" 1 "teacher001" 4600), snd r))
    by reflexivity.
  split; [exact H |]. split; [reflexivity |].
  destruct (started_session_serves_tokens _ _ _ _ _ _ _ _ 4599 H eq_refl)
    as [_ E].
  rewrite E. reflexivity.
Defined.
